(** * CSV wizard (app.py): table store, field typer, value parser, wizard

    A shallow embedding of [src/app.py].  The helpers [load_csv],
    [save_csv_atomic], [infer_input_type] and [parse_value] are pure
    functions over an explicit file store; the Streamlit script below
    the helpers is one function [run] from the session state and the
    widget inputs of one script run to the next session state.

    Conventions:
    - Python objects held in cells are [value]s; what a widget returns
      (a checkbox boolean or a text-input string) is a [raw] value;
    - a pandas column is a [Series]: a dtype tag and its values;
    - a string is the sequence of the bytes of its UTF-8 form; white
      space and digits are modelled on the ASCII range;
    - the conversions between text and binary floating point, and the
      dtype [pd.concat] chooses for a column that is empty or is given a
      null, are fields of a [Library] record: the development holds for
      every such library. *)

From Stdlib Require Import ZArith String Ascii DecimalString DecimalZ Floats Lia.
From stdpp Require Import gmap strings list.

Local Open Scope string_scope.
Local Open Scope list_scope.

(** ** Python strings and numbers *)

(** [str.isspace] on the ASCII range: TAB..CR, FS..US and the space.
    The white space beyond that range (U+0085, U+00A0, ...) is not
    modelled: on such text [strip] below removes less than [str.strip]. *)
Definition py_isspace (c : ascii) : bool :=
  let n := N_of_ascii c in
  ((9 <=? n) && (n <=? 13) || (28 <=? n) && (n <=? 32))%N.

Fixpoint lstrip (s : string) : string :=
  match s with
  | String c s' => if py_isspace c then lstrip s' else s
  | EmptyString => EmptyString
  end.

Fixpoint rstrip (s : string) : string :=
  match s with
  | EmptyString => EmptyString
  | String c s' =>
      match rstrip s' with
      | EmptyString => if py_isspace c then EmptyString else String c EmptyString
      | r => String c r
      end
  end.

(** [s.strip()] *)
Definition strip (s : string) : string := rstrip (lstrip s).

Definition is_digit (c : ascii) : bool :=
  let n := N_of_ascii c in ((48 <=? n) && (n <=? 57))%N.

(** The digits of an integer literal with its underscores removed: an
    underscore may only stand between two digits. *)
Fixpoint drop_underscores (after_digit : bool) (s : string) : option string :=
  match s with
  | EmptyString => if after_digit then Some EmptyString else None
  | String c s' =>
      if is_digit c then String c <$> drop_underscores true s'
      else if Ascii.eqb c "_" then
        (if after_digit then
           match s' with
           | EmptyString => None
           | String c' _ => if is_digit c' then drop_underscores false s' else None
           end
         else None)
      else None
  end.

(** An unsigned run of decimal digits, at least one. *)
Definition nat_literal (s : string) : option Z :=
  Z.of_uint <$> NilZero.uint_of_string s.

Definition split_sign (s : string) : bool * string :=
  match s with
  | String c s' =>
      if Ascii.eqb c "-" then (true, s')
      else if Ascii.eqb c "+" then (false, s')
      else (false, s)
  | EmptyString => (false, s)
  end.

Definition apply_sign (neg : bool) (n : Z) : Z := if neg then (- n)%Z else n.

(** [int(s)] for a string [s]; [None] stands for [ValueError].
    [max_digits] is [sys.get_int_max_str_digits()], 0 meaning no limit. *)
Definition py_int (max_digits : nat) (s : string) : option Z :=
  let '(neg, body) := split_sign (strip s) in
  match drop_underscores false body with
  | Some ds =>
      if negb (Nat.eqb max_digits 0) && (max_digits <? String.length ds)%nat
      then None
      else apply_sign neg <$> nat_literal ds
  | None => None
  end.

(** [str(n)] for an integer. *)
Definition Z_str (z : Z) : string := NilZero.string_of_int (Z.to_int z).

(** ** Values *)

(** The Python objects a cell holds.  [VNone] is a null: [None], or the
    NaN that pandas puts for a missing value; the two are not told
    apart. *)
Inductive value : Type :=
| VNone
| VBool (b : bool)
| VInt (z : Z)
| VFloat (x : float)
| VStr (s : string).

(** What the wizard holds in its draft: [None], a checkbox state or the
    text of an input box. *)
Inductive raw : Type :=
| RNone
| RBool (b : bool)
| RStr (s : string).

Definition raw_value (r : raw) : value :=
  match r with
  | RNone => VNone
  | RBool b => VBool b
  | RStr s => VStr s
  end.

(** [str(value)] *)
Definition py_str (r : raw) : string :=
  match r with
  | RNone => "None"
  | RBool true => "True"
  | RBool false => "False"
  | RStr s => s
  end.

(** [bool(value)]: truthiness. *)
Definition py_bool (r : raw) : bool :=
  match r with
  | RNone => false
  | RBool b => b
  | RStr s => negb (String.eqb s "")
  end.

(** [pd.isna] on a cell: [None] and NaN. *)
Definition isna (v : value) : bool :=
  match v with
  | VNone => true
  | VFloat x => PrimFloat.is_nan x
  | _ => false
  end.

Inductive dtype : Type := DBool | DInt64 | DUInt64 | DFloat64 | DObject.

Record Series : Type := mkSeries { s_dtype : dtype; s_values : list value }.

(** The parts of the Python runtime and of pandas that are not modelled
    here but taken as given. *)
Record Library : Type := mkLibrary {
  (** [sys.get_int_max_str_digits()] *)
  int_max_str_digits : nat;
  (** [float(s)] on a string; [None] stands for [ValueError] *)
  py_float : string -> option float;
  (** [repr(x)], which is how [to_csv] writes a float *)
  float_repr : float -> string;
  (** [float(n)] on an integer *)
  float_of_int : Z -> float;
  (** the float conversion of [read_csv] on one field *)
  csv_float : string -> option float;
  (** the null spellings [read_csv] knows by default *)
  default_na_values : list string;
  (** what [read_csv] makes of a column that is neither integers,
      booleans, nulls nor text (floats, integers beyond 64 bits) *)
  csv_other_column : list string -> Series;
  (** how many rows [read_csv] types in one pass ([low_memory]), for a
      table of that many columns *)
  chunk_rows : nat -> nat;
  (** what [read_csv] makes of any other file than those modelled below:
      a header that repeats or omits a name, a row longer than its
      header, more rows than are typed in one pass, a line break inside
      a field, a quoted first field that starts with a byte-order mark *)
  csv_elsewhere : list (list string) -> option (list (string * Series));
  (** [pd.to_numeric(values)] returns rather than raises *)
  to_numeric_ok : list value -> bool;
  (** the dtype [pd.concat] gives a column extended by one value, where
      the column has no values or the value is a null: whether such
      entries count for the common dtype depends on the pandas release *)
  concat_dtype : Series -> value -> dtype
}.

(** ** Value parser *)

Section Parser.
Context (lib : Library).

(** [value is None or str(value).strip() == ""] *)
Definition blank (v : raw) : bool :=
  match v with
  | RNone => true
  | _ => String.eqb (strip (py_str v)) ""
  end.

Definition parse_value (v : raw) (kind : string) : value :=
  if String.eqb kind "bool" then VBool (py_bool v)
  else if String.eqb kind "int" then
    if blank v then VNone
    else match py_int (int_max_str_digits lib) (strip (py_str v)) with
         | Some n => VInt n
         | None => VNone
         end
  else if String.eqb kind "float" then
    if blank v then VNone
    else match py_float lib (strip (py_str v)) with
         | Some x => VFloat x
         | None => VNone
         end
  else match v with
       | RNone => VStr ""
       | _ => raw_value v
       end.

End Parser.

(** ** Tables and their CSV form *)

(** A table: its columns in order, each with its label.  Labels are
    distinct in every table [read_csv] returns. *)
Abbreviation DataFrame := (list (string * Series)).

Definition columns (df : DataFrame) : list string := df.*1.

(** [df[c]]: the column with that label (the first, should a header
    typed by the user repeat it). *)
Definition df_col (df : DataFrame) (c : string) : option Series :=
  snd <$> List.find (fun p => String.eqb (fst p) c) df.

(** [len(df)] *)
Definition nrows (df : DataFrame) : nat :=
  match df with
  | [] => 0
  | (_, s) :: _ => length (s_values s)
  end.

(** A CSV file as its records, each a list of fields; the quoting of
    fields by the csv writer and reader is below this model.  A record
    without fields is an empty line. *)
Abbreviation file := (list (list string)).

(** Whether a line break inside a field is quoted depends on the csv
    writer; fields without one are safe. *)
Definition no_line_break (f : string) : bool :=
  forallb (fun c => negb (Ascii.eqb c "010" || Ascii.eqb c "013")) (list_ascii_of_string f).

(** The lines [read_csv] skips ([skip_blank_lines]): the empty ones and
    those made of blanks and tabs only.  The writer quotes a lone empty
    field, which is a line of its own kind, and leaves blanks and tabs
    unquoted. *)
Definition blank_line (r : list string) : bool :=
  match r with
  | [] => true
  | [f] =>
      negb (String.eqb f "")
      && forallb (fun c => Ascii.eqb c " " || Ascii.eqb c "009") (list_ascii_of_string f)
  | _ => false
  end.

(** Files by path; directories are not modelled. *)
Abbreviation filesystem := (gmap string file).

Definition NA_VALUES : list string := [""; "NA"; "NaN"; "None"].

Definition INT64_MIN : Z := (- 2 ^ 63)%Z.
Definition INT64_MAX : Z := (2 ^ 63 - 1)%Z.
Definition UINT64_MAX : Z := (2 ^ 64 - 1)%Z.

(** The UTF-8 form of U+FEFF, the byte-order mark. *)
Definition drop_bom (t : string) : option string :=
  match t with
  | String a (String b (String c t')) =>
      if Ascii.eqb a "239" && Ascii.eqb b "187" && Ascii.eqb c "191"
      then Some t' else None
  | _ => None
  end.

Definition has_bom (t : string) : bool :=
  match drop_bom t with Some _ => true | None => false end.

(** The first of these fields starts with a byte-order mark. *)
Definition bom_led (r : list string) : bool :=
  match r with t :: _ => has_bom t | [] => false end.

(** A field the csv writer puts in quotes: it holds the delimiter, a
    quote or a line break. *)
Definition quoted (t : string) : bool :=
  existsb (fun c => Ascii.eqb c "," || Ascii.eqb c "034"
                    || Ascii.eqb c "010" || Ascii.eqb c "013")
          (list_ascii_of_string t).

(** The reader skips a byte-order mark at the very start of the file:
    the first field loses it.  A line that held nothing else is then an
    empty line.  Behind an opening quote the mark is not at the start. *)
Definition skip_bom (f : file) : file :=
  match f with
  | (t :: r) :: rest =>
      match drop_bom t, r with
      | Some EmptyString, [] => [] :: rest
      | Some t', _ => (t' :: r) :: rest
      | None, _ => f
      end
  | _ => f
  end.

Definition bom_quoted (f : file) : bool :=
  match f with
  | (t :: _) :: _ => has_bom t && quoted t
  | _ => false
  end.

(** A field the reader takes for a 64-bit integer: digits, with or
    without a minus sign. *)
Definition csv_int64 (t : string) : option Z :=
  match t with
  | String c t' =>
      n ← (if Ascii.eqb c "-" then Z.opp <$> nat_literal t' else nat_literal t);
      if ((INT64_MIN <=? n) && (n <=? INT64_MAX))%Z then Some n else None
  | EmptyString => None
  end.

(** Every field the reader's integer conversion can accept, and more:
    digits with an optional sign, white space around them. *)
Definition maybe_int (t : string) : bool :=
  let body := (split_sign (strip t)).2 in
  negb (String.eqb body "") && forallb is_digit (list_ascii_of_string body).

Definition true_values : list string := ["True"; "TRUE"; "true"].
Definition false_values : list string := ["False"; "FALSE"; "false"].

Definition is_true_word (t : string) : bool := bool_decide (t ∈@{list string} true_values).
Definition is_bool_word (t : string) : bool :=
  bool_decide (t ∈@{list string} (true_values ++ false_values)%list).

Section Csv.
Context (lib : Library).

(** How [to_csv] writes a cell: nulls as the empty field ([na_rep]).
    An integer kept in a float64 column is written as that float. *)
Definition render (d : dtype) (v : value) : string :=
  if isna v then ""
  else match v with
       | VNone => ""
       | VBool b => if b then "True" else "False"
       | VInt z =>
           match d with
           | DFloat64 => float_repr lib (float_of_int lib z)
           | _ => Z_str z
           end
       | VFloat x => float_repr lib x
       | VStr s => s
       end.

(** [df.to_csv(path, index=False)]: the header, then one record per row. *)
Definition to_csv (df : DataFrame) : file :=
  columns df ::
  ((fun i => (fun p : string * Series =>
                render (s_dtype p.2) (nth i (s_values p.2) VNone)) <$> df)
     <$> seq 0 (nrows df)).

(** [na_values=NA_VALUES, keep_default_na=True] *)
Definition is_na (t : string) : bool :=
  bool_decide (t ∈@{list string} (NA_VALUES ++ default_na_values lib)%list).

Definition cell_of (f : string -> value) (t : string) : value :=
  if is_na t then VNone else f t.

(** The dtype inference of [read_csv] on the fields of a column with at
    least one row, in its order: int64 (float64 when a null is among the
    integers), float64, bool (object when a null is among the
    booleans), object.  A column is text as soon as one of its fields is
    neither a number nor, all of them, boolean words. *)
Definition typed_column (toks : list string) : Series :=
  let live := filter (fun t => negb (is_na t)) toks in
  let has_na := existsb is_na toks in
  if forallb (fun t => bool_decide (is_Some (csv_int64 t))) live then
    if has_na
    then mkSeries DFloat64
           (cell_of (fun t => from_option (fun n => VFloat (float_of_int lib n)) VNone
                                (csv_int64 t)) <$> toks)
    else mkSeries DInt64
           (cell_of (fun t => from_option VInt VNone (csv_int64 t)) <$> toks)
  else if forallb is_bool_word live then
    mkSeries (if has_na then DObject else DBool)
             (cell_of (fun t => VBool (is_true_word t)) <$> toks)
  else if existsb (fun t => bool_decide (csv_float lib t = None) && negb (maybe_int t)) live
  then mkSeries DObject (cell_of VStr <$> toks)
  else csv_other_column lib toks.

(** A column without rows is an object column. *)
Definition column_of_tokens (toks : list string) : Series :=
  match toks with
  | [] => mkSeries DObject []
  | _ => typed_column toks
  end.

(** A header with distinct, non-empty names, no row longer than it, no
    more rows than are typed in one pass, and no line break inside a
    field. *)
Definition regular (header : list string) (rows : list (list string)) : bool :=
  bool_decide (NoDup header) && bool_decide ("" ∉@{list string} header)
  && forallb (fun r => length r <=? length header)%nat rows
  && (length rows <=? chunk_rows lib (length header))%nat
  && forallb (forallb no_line_break) (header :: rows).

(** [pd.read_csv(path, na_values=NA_VALUES, keep_default_na=True)] on
    the contents of the file; [None] stands for an exception.  A
    byte-order mark at the start of the file is skipped (a first field
    that has one and is quoted is left to the library); blank lines are
    skipped; a file without any other line has no columns to parse. *)
Definition read_csv (f : file) : option DataFrame :=
  if bom_quoted f then csv_elsewhere lib f
  else
    match filter (fun r => negb (blank_line r)) (skip_bom f) with
    | [] => None
    | header :: rows =>
        if regular header rows
        then Some (imap (fun j name =>
                     (name, column_of_tokens ((fun r => nth j r "") <$> rows))) header)
        else csv_elsewhere lib f
    end.

(** *** Table store *)

(** [load_csv]: the table and the file store it leaves. *)
Definition load_csv (path : string) (fs : filesystem) : DataFrame * filesystem :=
  match fs !! path with
  | None => ([], <[path := to_csv []]> fs)
  | Some f =>
      match read_csv f with
      | Some df => (df, fs)
      | None => ([], fs)
      end
  end.

(** [os.replace(src, dst)]: one atomic step. *)
Definition os_replace (src dst : string) (fs : filesystem) : filesystem :=
  match fs !! src with
  | Some c => <[dst := c]> (delete src fs)
  | None => fs
  end.

Definition tmp_path (path : string) : string := (path ++ ".tmp")%string.

(** [save_csv_atomic] *)
Definition save_csv_atomic (df : DataFrame) (path : string) (fs : filesystem)
  : filesystem :=
  let tmp := tmp_path path in
  os_replace tmp path (<[tmp := to_csv df]> fs).

(** The file stores an observer can see while [save_csv_atomic] runs:
    [tmp] is created and filled ([partials] are its contents on the way,
    whatever the buffering), holds the whole serialization, and is then
    renamed over [path]. *)
Definition save_trace (partials : list file) (df : DataFrame) (path : string)
    (fs : filesystem) : list filesystem :=
  let tmp := tmp_path path in
  (fs :: ((fun c => <[tmp := c]> fs) <$> (partials ++ [to_csv df]))
     ++ [save_csv_atomic df path fs])%list.

(** ** Field typer *)

Definition is_bool_dtype (d : dtype) : bool :=
  match d with DBool => true | _ => false end.
Definition is_integer_dtype (d : dtype) : bool :=
  match d with DInt64 | DUInt64 => true | _ => false end.
Definition is_float_dtype (d : dtype) : bool :=
  match d with DFloat64 => true | _ => false end.

(** [series.dropna()] *)
Definition dropna (vs : list value) : list value :=
  filter (fun v => negb (isna v)) vs.

Definition infer_input_type (s : Series) : string :=
  match s_values s with
  | [] => "text"
  | _ =>
      if is_bool_dtype (s_dtype s) then "bool"
      else if is_integer_dtype (s_dtype s) then "int"
      else if is_float_dtype (s_dtype s) then "float"
      else if to_numeric_ok lib (dropna (s_values s)) then "float"
      else "text"
  end.

End Csv.

(** ** Wizard *)

Definition DEFAULT_CSV_PATH : string := "/workspaces/rawand/database.csv".

(** [st.session_state] and the file store. *)
Record state : Type := mkState {
  csv_path : string;
  df : DataFrame;
  wizard_idx : Z;
  temp_row : gmap string raw;
  files : filesystem
}.

(** The button pressed in a script run; Streamlit reruns the script on
    each press, so a run sees at most one. *)
Inductive click : Type :=
| NoClick | CreateHeaders | GoBack | GoNext | SaveDone
| ResetWizard | JumpFirst | JumpLast.

Definition click_eqb (a b : click) : bool :=
  match a, b with
  | NoClick, NoClick | CreateHeaders, CreateHeaders | GoBack, GoBack
  | GoNext, GoNext | SaveDone, SaveDone | ResetWizard, ResetWizard
  | JumpFirst, JumpFirst | JumpLast, JumpLast => true
  | _, _ => false
  end.

(** What the user gave the widgets of one run. *)
Record inputs : Type := mkInputs {
  cols_input : string;   (* the header text box *)
  checked : bool;        (* the checkbox of a boolean field *)
  text : string;         (* the text box of any other field *)
  clicked : click
}.

(** [l[i]] for a Python list: negative indices count from the end;
    [None] stands for [IndexError]. *)
Definition py_index {A} (l : list A) (i : Z) : option A :=
  if (0 <=? i)%Z then l !! Z.to_nat i
  else if (- Z.of_nat (length l) <=? i)%Z then l !! Z.to_nat (Z.of_nat (length l) + i)
  else None.

(** [s.split(sep)] for a one-character separator. *)
Fixpoint split_on (sep : ascii) (s : string) : list string :=
  match s with
  | EmptyString => [EmptyString]
  | String c s' =>
      if Ascii.eqb c sep then EmptyString :: split_on sep s'
      else match split_on sep s' with
           | h :: t => String c h :: t
           | [] => [String c EmptyString]
           end
  end.

Definition set_idx (i : Z) (st : state) : state :=
  mkState (csv_path st) (df st) i (temp_row st) (files st).
Definition set_temp_row (t : gmap string raw) (st : state) : state :=
  mkState (csv_path st) (df st) (wizard_idx st) t (files st).
Definition set_df (d : DataFrame) (st : state) : state :=
  mkState (csv_path st) d (wizard_idx st) (temp_row st) (files st).
Definition set_files (fs : filesystem) (st : state) : state :=
  mkState (csv_path st) (df st) (wizard_idx st) (temp_row st) fs.

Definition reset_wizard (clear_values : bool) (st : state) : state :=
  let st := set_idx 0 st in
  if clear_values then set_temp_row ∅ st else st.

(** Lines 126-131: a field entered without a draft value gets one. *)
Definition seed (kinds : gmap string string) (current_col : string)
    (temp : gmap string raw) : option (gmap string raw) :=
  match temp !! current_col with
  | Some _ => Some temp
  | None =>
      kind ← kinds !! current_col;
      Some (<[current_col := if String.eqb kind "bool" then RBool false else RStr ""]> temp)
  end.

(** How a run ends: it returns (or asks for a rerun), or an exception
    stops it; either way the session keeps what the run did to it. *)
Inductive outcome : Type :=
| Returned (st : state)
| Raised (st : state).

Definition after (o : outcome) : state :=
  match o with Returned st | Raised st => st end.

(** The dtype of the one-cell column [pd.DataFrame([row])] makes of a
    value: an integer is int64 where it fits, uint64 from [2^63] to
    [2^64 - 1], and a Python object beyond. *)
Definition row_dtype (v : value) : dtype :=
  match v with
  | VBool _ => DBool
  | VInt n =>
      if ((INT64_MIN <=? n) && (n <=? INT64_MAX))%Z then DInt64
      else if ((0 <=? n) && (n <=? UINT64_MAX))%Z then DUInt64
      else DObject
  | VFloat _ => DFloat64
  | VNone | VStr _ => DObject
  end.

(** The common dtype of two columns: their own when they agree, float64
    for two different numeric ones (int64 with uint64 among them),
    object otherwise. *)
Definition common_dtype (a b : dtype) : dtype :=
  match a, b with
  | DBool, DBool => DBool
  | DInt64, DInt64 => DInt64
  | DUInt64, DUInt64 => DUInt64
  | DInt64, (DUInt64 | DFloat64) | DUInt64, (DInt64 | DFloat64)
  | DFloat64, (DInt64 | DUInt64 | DFloat64) => DFloat64
  | _, _ => DObject
  end.

(** The cells [st.dataframe] can hand to Arrow: an integer has to fit
    in 64 bits, signed or unsigned; [OverflowError] otherwise. *)
Definition arrow_ok (v : value) : bool :=
  match v with
  | VInt n => ((INT64_MIN <=? n) && (n <=? UINT64_MAX))%Z
  | _ => true
  end.

Section Wizard.
Context (lib : Library).

(** The state a session starts in (lines 70-82). *)
Definition start (fs : filesystem) : state :=
  let '(d, fs') := load_csv lib DEFAULT_CSV_PATH fs in
  mkState DEFAULT_CSV_PATH d 0 ∅ fs'.

(** [{c: infer_input_type(df[c]) for c in cols}] *)
Definition kinds_of (d : DataFrame) : gmap string string :=
  list_to_map
    (omap (fun c => (fun s => (c, infer_input_type lib s)) <$> df_col d c) (columns d)).

(** Lines 171-173: the draft parsed column by column; a column without
    a draft value counts as the empty string. *)
Definition final_row (kinds : gmap string string) (temp : gmap string raw)
    (cols : list string) : option (gmap string value) :=
  foldl (fun acc c =>
           row ← acc;
           kind ← kinds !! c;
           Some (<[c := parse_value lib (default (RStr "") (temp !! c)) kind]> row))
        (Some ∅) cols.

(** What a cell becomes in a column of dtype [d] ([astype]): a float64
    column holds its integers as floats; any other cell stays the
    object it is. *)
Definition cast (d : dtype) (v : value) : value :=
  match d, v with
  | DFloat64, VInt n => VFloat (float_of_int lib n)
  | _, _ => v
  end.

(** A column extended by the row's value: [pd.concat] converts both to
    their common dtype.  Where the column has no values or the value is
    a null the dtype is the library's. *)
Definition concat_column (s : Series) (v : value) : Series :=
  let d := match s_values s with
           | [] => concat_dtype lib s v
           | _ => if isna v then concat_dtype lib s v
                  else common_dtype (s_dtype s) (row_dtype v)
           end in
  mkSeries d (cast d <$> (s_values s ++ [v])).

(** [pd.concat([df, pd.DataFrame([row])], ignore_index=True)] for a row
    keyed by columns of [df]: each column gets the row's value (a null
    where the row has none).  pandas refuses to align repeated labels:
    [None]. *)
Definition concat_row (d : DataFrame) (row : gmap string value) : option DataFrame :=
  if bool_decide (NoDup (columns d))
  then Some ((fun p : string * Series =>
                (p.1, concat_column p.2 (default VNone (row !! p.1)))) <$> d)
  else None.

(** The header form shown while the table has no column (lines 98-113). *)
Definition run_headers (inp : inputs) (st : state) : state :=
  if click_eqb (clicked inp) CreateHeaders then
    let cols := filter (fun c => c ≠ "") (strip <$> split_on "," (cols_input inp)) in
    match cols with
    | [] => st
    | _ =>
        let d := (fun c => (c, mkSeries DObject [])) <$> cols in
        reset_wizard true
          (set_files (save_csv_atomic lib d (csv_path st) (files st)) (set_df d st))
    end
  else st.

(** The save branch (lines 169-181): the parsed row and the session it
    leaves; [None] stands for an exception, raised before anything is
    written. *)
Definition save_row (kinds : gmap string string) (cols : list string) (st : state)
  : option (gmap string value * state) :=
  row ← final_row kinds (temp_row st) cols;
  new_df ← concat_row (df st) row;
  Some (row,
        reset_wizard true
          (set_df new_df
             (set_files (save_csv_atomic lib new_df (csv_path st) (files st)) st))).

(** [st.dataframe(pd.DataFrame([final_row]))] (lines 183-185) returns:
    every cell of the row can be shown. *)
Definition preview_ok (cols : list string) (row : gmap string value) : bool :=
  forallb (fun c => arrow_ok (default VNone (row !! c))) cols.

(** The buttons under the form (lines 188-197).  The draft shown after
    them (lines 199-202) holds strings and booleans only and always
    displays. *)
Definition utility_row (inp : inputs) (total : Z) (st : state) : outcome :=
  if click_eqb (clicked inp) ResetWizard then Returned (reset_wizard true st)
  else if click_eqb (clicked inp) JumpFirst then Returned (set_idx 0 st)
  else if click_eqb (clicked inp) JumpLast then Returned (set_idx (total - 1) st)
  else Returned st.

(** One field of the wizard (lines 115-202).  [cols[idx]] raises
    outside the list (line 119); [st.progress((idx + 1) / total)] raises
    on a value below 0 (line 123); the preview of the saved row raises
    on an integer beyond 64 bits (line 185), after the row is saved. *)
Definition run_wizard (inp : inputs) (st : state) : outcome :=
  let cols := columns (df st) in
  let kinds := kinds_of (df st) in
  let total := Z.of_nat (length cols) in
  let idx := wizard_idx st in
  match py_index cols idx with
  | None => Raised st
  | Some current_col =>
      if (idx + 1 <? 0)%Z then Raised st
      else
        match seed kinds current_col (temp_row st), kinds !! current_col with
        | Some seeded, Some kind =>
            let val :=
              if String.eqb kind "bool" then RBool (checked inp) else RStr (text inp) in
            let st := set_temp_row (<[current_col := val]> seeded) st in
            let go_back := click_eqb (clicked inp) GoBack in
            let go_next := click_eqb (clicked inp) GoNext in
            let save_done := click_eqb (clicked inp) SaveDone in
            if go_back && (0 <? idx)%Z then Returned (set_idx (wizard_idx st - 1) st)
            else if go_next && (idx <? total - 1)%Z
            then Returned (set_idx (wizard_idx st + 1) st)
            else if save_done && (idx =? total - 1)%Z then
              match save_row kinds cols st with
              | None => Raised st
              | Some (row, st') =>
                  if preview_ok cols row then utility_row inp total st' else Raised st'
              end
            else utility_row inp total st
        | _, _ => Raised st
        end
  end.

(** One run of the script. *)
Definition run (inp : inputs) (st : state) : outcome :=
  match df st with
  | [] => Returned (run_headers inp st)
  | _ => run_wizard inp st
  end.

(** The sessions the script can reach from its start. *)
Inductive reachable (fs : filesystem) : state -> Prop :=
| reach_start : reachable fs (start fs)
| reach_run inp st :
    reachable fs st -> reachable fs (after (run inp st)).

End Wizard.

(** ** What save and load are compared on *)

(** The labels and values of a table, column by column, without the
    dtype tags. *)
Definition table_values (d : DataFrame) : list (string * list value) :=
  (fun p : string * Series => (p.1, s_values p.2)) <$> d.

Definition is_null (v : value) : bool :=
  match v with VNone => true | _ => false end.

Section Stable.
Context (lib : Library).

(** A cell is written as a field that is not read back as a null. *)
Definition survives (d : dtype) (v : value) : bool := negb (is_na lib (render lib d v)).

Definition int_cell (d : dtype) (v : value) : bool :=
  match v with
  | VInt z => (INT64_MIN <=? z)%Z && (z <=? INT64_MAX)%Z && survives d v
  | _ => false
  end.

Definition bool_cell (d : dtype) (v : value) : bool :=
  match v with
  | VBool _ => survives d v
  | _ => false
  end.

Definition text_cell (d : dtype) (v : value) : bool :=
  match v with
  | VStr _ => survives d v
  | _ => false
  end.

Definition text_where (f : string -> bool) (v : value) : bool :=
  match v with
  | VStr s => f s
  | _ => false
  end.

(** The columns [read_csv] gives back as they were written: no values;
    nulls only; 64-bit integers in a column that is not float64;
    booleans and nulls; text and nulls, where some text is not a
    boolean word and some is not a number. *)
Definition stable_column (s : Series) : bool :=
  let d := s_dtype s in
  let vs := s_values s in
  forallb is_null vs
  || forallb (int_cell d) vs && negb (is_float_dtype d)
  || forallb (fun v => is_null v || bool_cell d v) vs
  || forallb (fun v => is_null v || text_cell d v) vs
     && existsb (text_where (fun t => bool_decide (csv_int64 t = None))) vs
     && existsb (text_where (fun t => negb (is_bool_word t))) vs
     && existsb (text_where (fun t => bool_decide (csv_float lib t = None)
                                      && negb (maybe_int t))) vs.

(** The tables for which save then load is the identity on labels and
    values: distinct non-empty labels, the first of them not starting
    with a byte-order mark, columns of one length, each of them stable, no more rows than are typed in one pass, no line break
    inside a label or a cell, and no line of the written file that the
    reader would skip (the label or a text cell of a one-column table
    made of blanks and tabs only). *)
Definition stable_table (d : DataFrame) : bool :=
  bool_decide (NoDup (columns d)) && bool_decide ("" ∉@{list string} columns d)
  && negb (bom_led (columns d))
  && forallb (fun p : string * Series =>
                (length (s_values p.2) =? nrows d)%nat && stable_column p.2) d
  && (nrows d <=? chunk_rows lib (length d))%nat
  && forallb (forallb no_line_break) (to_csv lib d)
  && (bool_decide (d = []) || forallb (fun r => negb (blank_line r)) (to_csv lib d)).

End Stable.

(** ** The wizard's position *)

(** Without columns the wizard waits at 0; with columns its position
    is an index into them. *)
Definition position_ok (st : state) : Prop :=
  (df st = [] /\ wizard_idx st = 0%Z)
  \/ (0 <= wizard_idx st < Z.of_nat (length (columns (df st))))%Z.

(** The draft value the save branch reads for column [c] in a run with
    inputs [inp] at the field [current]: the widget's value for the
    field on screen, the stored draft for another column, the empty
    string where there is none. *)
Definition draft_value (kind : string) (inp : inputs) (current : string)
    (temp : gmap string raw) (c : string) : raw :=
  if String.eqb c current
  then (if String.eqb kind "bool" then RBool (checked inp) else RStr (text inp))
  else default (RStr "") (temp !! c).

(** The cell the save branch makes for column [p]: the draft value
    parsed by the column's kind.  [s_cur] is the column on screen. *)
Definition saved_cell (lib : Library) (inp : inputs) (st : state) (cur : string)
    (s_cur : Series) (p : string * Series) : value :=
  parse_value lib (draft_value (infer_input_type lib s_cur) inp cur (temp_row st) p.1)
              (infer_input_type lib p.2).

(** Each draft value has the type of its column's widget: a boolean
    under the boolean kind, a string under any other. *)
Definition draft_typed (kinds : gmap string string) (temp : gmap string raw) : Prop :=
  forall c v kind, temp !! c = Some v -> kinds !! c = Some kind ->
    if String.eqb kind "bool" then exists b, v = RBool b else exists t, v = RStr t.

(** ** A library to run examples with *)

(** The nearest float, ties to even. *)
Definition sample_float_of_int (z : Z) : float :=
  SF2Prim (binary_normalize prec emax z 0 false).

(** Integer literals only. *)
Definition sample_float (s : string) : option float :=
  sample_float_of_int <$> py_int 0 s.

(** A float printed by its integral part. *)
Definition sample_float_repr (x : float) : string :=
  match Prim2SF x with
  | S754_zero s => if s then "-0.0" else "0.0"
  | S754_infinity s => if s then "-inf" else "inf"
  | S754_nan => "nan"
  | S754_finite s m e =>
      let n := if (0 <=? e)%Z then (Z.pos m * 2 ^ e)%Z else (Z.pos m / 2 ^ (- e))%Z in
      ((if s then "-" else "") ++ Z_str n ++ ".0")%string
  end.

Definition sample_na_values : list string :=
  [""; "#N/A"; "#N/A N/A"; "#NA"; "-1.#IND"; "-1.#QNAN"; "-NaN"; "-nan";
   "1.#IND"; "1.#QNAN"; "<NA>"; "N/A"; "NA"; "NULL"; "NaN"; "None"; "n/a";
   "nan"; "null"].

Definition sample_dtype_of (v : value) : dtype :=
  match v with
  | VBool _ => DBool
  | VInt _ => DInt64
  | VFloat _ => DFloat64
  | _ => DObject
  end.

Definition dtype_eqb (a b : dtype) : bool :=
  match a, b with
  | DBool, DBool | DInt64, DInt64 | DUInt64, DUInt64
  | DFloat64, DFloat64 | DObject, DObject => true
  | _, _ => false
  end.

(** One [Library], to run closed examples with.  It is not Python's: it
    knows only the floats written as integers, and a column that is
    empty or is given a null keeps its dtype in [concat] when the value
    has it and becomes an object column otherwise.  On what the
    examples below give it, it does what Python and pandas do. *)
Definition sample_lib : Library := {|
  int_max_str_digits := 4300;
  py_float := sample_float;
  float_repr := sample_float_repr;
  float_of_int := sample_float_of_int;
  csv_float := sample_float;
  default_na_values := sample_na_values;
  csv_other_column := fun toks =>
    mkSeries DFloat64 ((fun t => from_option VFloat VNone (sample_float t)) <$> toks);
  chunk_rows := fun _ => 4096;
  csv_elsewhere := fun _ => None;
  to_numeric_ok := forallb (fun v =>
    match v with VStr s => bool_decide (is_Some (sample_float s)) | _ => true end);
  concat_dtype := fun s v =>
    if dtype_eqb (s_dtype s) (sample_dtype_of v) then s_dtype s else DObject
|}.

(** A table with an integer and a text column, the file that holds it,
    and a session at its last field with ["5"] drafted for [A]. *)
Definition sample_table : DataFrame :=
  [("A", mkSeries DInt64 [VInt 1]); ("B", mkSeries DObject [VStr "x"])].

Definition sample_files : filesystem :=
  {[ DEFAULT_CSV_PATH := [["A"; "B"]; ["1"; "x"]] ]}.

Definition sample_state : state :=
  mkState DEFAULT_CSV_PATH sample_table 1 {[ "A" := RStr "5" ]} sample_files.

Definition sample_save : inputs := mkInputs "" false "hello" SaveDone.

(** A session on a table of one int64 column, and a Save with an entry
    just beyond the signed 64-bit range. *)
Definition sample_ints : state :=
  start sample_lib {[ DEFAULT_CSV_PATH := [["A"]; ["1"]] ]}.

Definition sample_big_save : inputs :=
  mkInputs "" false "9223372036854775809" SaveDone.

(** A Save with an entry beyond 64 bits. *)
Definition sample_huge_save : inputs :=
  mkInputs "" false "18446744073709551616" SaveDone.

(** A table of stable columns, and one whose text is a null spelling. *)
Definition sample_stable : DataFrame :=
  [("A", mkSeries DInt64 [VInt 1; VInt (-20)]);
   ("B", mkSeries DObject [VStr "x"; VNone]);
   ("C", mkSeries DBool [VBool true; VBool false])].

Definition sample_na_text : DataFrame := [("A", mkSeries DObject [VStr "NA"])].

(** A file with one boolean column. *)
Definition sample_bool_files : filesystem :=
  {[ DEFAULT_CSV_PATH := [["F"]; ["True"]; ["False"]] ]}.

(** ** Further notions *)

(** What the widget of a field returns (lines 139-147): the checkbox
    under the boolean kind, the text box under any other. *)
Definition widget_value (kind : string) (inp : inputs) : raw :=
  if String.eqb kind "bool" then RBool (checked inp) else RStr (text inp).

(** Every column has as many values as the table has rows. *)
Definition rectangular (d : DataFrame) : Prop :=
  forall p : string * Series, p ∈ d -> length (s_values p.2) = nrows d.


(** Where a button that neither saves nor resets leaves the wizard
    (lines 159-166 and 192-197), in a table of [n] columns. *)
Definition moved (c : click) (n idx : Z) : Z :=
  match c with
  | GoBack => if (0 <? idx)%Z then (idx - 1)%Z else idx
  | GoNext => if (idx <? n - 1)%Z then (idx + 1)%Z else idx
  | JumpFirst => 0%Z
  | JumpLast => (n - 1)%Z
  | _ => idx
  end.

Definition all_space (s : string) : bool :=
  forallb py_isspace (list_ascii_of_string s).

(** ** Sessions to run examples with *)

Definition sample_next : inputs := mkInputs "" false "draft" GoNext.
Definition sample_back : inputs := mkInputs "" false "other" GoBack.
Definition sample_reset : inputs := mkInputs "" false "" ResetWizard.
Definition sample_jump : inputs := mkInputs "" false "" JumpLast.
Definition sample_headers : inputs := mkInputs " A, B ,," false "" CreateHeaders.

(** The session opened on [sample_files], and the one after Next. *)
Definition sample_opened : state := start sample_lib sample_files.
Definition sample_second : state := after (run sample_lib sample_next sample_opened).

(** A session at the last of three fields, the others never shown. *)
Definition sample_jumped : state :=
  mkState DEFAULT_CSV_PATH sample_stable 2 ∅
    {[ DEFAULT_CSV_PATH := to_csv sample_lib sample_stable ]}.

(** The session opened without a file, after Create headers, and then
    after Next. *)
Definition sample_created : state :=
  after (run sample_lib sample_headers (start sample_lib ∅)).
Definition sample_fresh : state := after (run sample_lib sample_next sample_created).

(** * Properties *)

Example strip_ex : strip "  a b	 " = "a b".
Proof. reflexivity. Qed.
Example py_int_ex1 : py_int 4300 " -1_000 " = Some (-1000)%Z.
Proof. reflexivity. Qed.
Example py_int_ex2 : py_int 4300 "abc" = None.
Proof. reflexivity. Qed.
Example py_int_ex3 : py_int 4300 "1__0" = None.
Proof. reflexivity. Qed.
Example py_int_ex4 : py_int 4300 "+007" = Some 7%Z.
Proof. reflexivity. Qed.
Example py_int_ex5 : py_int 4300 "-" = None.
Proof. reflexivity. Qed.
Example py_int_ex6 : py_int 2 "123" = None.
Proof. reflexivity. Qed.
Example split_on_ex : split_on "," "a, b,,c" = ["a"; " b"; ""; "c"].
Proof. reflexivity. Qed.
Example blank_line_ex :
  blank_line [] = true /\ blank_line [" 	 "] = true
  /\ blank_line [""] = false /\ blank_line [" "; ""] = false.
Proof. repeat split. Qed.
Example to_csv_ex :
  to_csv sample_lib sample_stable
  = [["A"; "B"; "C"]; ["1"; "x"; "True"]; ["-20"; ""; "False"]].
Proof. vm_compute. reflexivity. Qed.
Example read_csv_ex : read_csv sample_lib [["A"; "B"]; ["1"; "x"]] = Some sample_table.
Proof. vm_compute. reflexivity. Qed.
Example read_csv_empty_ex : read_csv sample_lib [[]] = None.
Proof. reflexivity. Qed.
Example read_csv_bom_ex :
  read_csv sample_lib
    [[String "239" (String "187" (String "191" "A")); "B"]; ["1"; "x"]]
  = Some sample_table.
Proof. vm_compute. reflexivity. Qed.
Example concat_column_ex :
  concat_column sample_lib (mkSeries DInt64 [VInt 1]) (VInt 5)
  = mkSeries DInt64 [VInt 1; VInt 5]
  /\ s_dtype (concat_column sample_lib (mkSeries DInt64 [VInt 1]) (VInt (2 ^ 63)))
     = DFloat64
  /\ s_dtype (concat_column sample_lib (mkSeries DInt64 [VInt 1]) (VInt (2 ^ 64)))
     = DObject
  /\ concat_column sample_lib (mkSeries DObject [VStr "x"]) (VStr "hello")
     = mkSeries DObject [VStr "x"; VStr "hello"].
Proof. repeat split. Qed.
Example run_wizard_progress_ex :
  run sample_lib (mkInputs "" false "" NoClick)
    (mkState DEFAULT_CSV_PATH sample_table (-2) ∅ sample_files)
  = Raised (mkState DEFAULT_CSV_PATH sample_table (-2) ∅ sample_files).
Proof. reflexivity. Qed.
Example typed_column_ints_and_null :
  s_dtype (typed_column sample_lib ["1"; ""]) = DFloat64.
Proof. vm_compute. reflexivity. Qed.
Example typed_column_bools_and_null :
  typed_column sample_lib ["True"; "NA"] = mkSeries DObject [VBool true; VNone].
Proof. vm_compute. reflexivity. Qed.
Example typed_column_text :
  typed_column sample_lib ["12"; "None"; "abc"]
  = mkSeries DObject [VStr "12"; VNone; VStr "abc"].
Proof. vm_compute. reflexivity. Qed.
Example run_headers_ex :
  columns (df (after (run sample_lib (mkInputs " A, B ,," false "" CreateHeaders)
                        (start sample_lib ∅))))
  = ["A"; "B"].
Proof. vm_compute. reflexivity. Qed.

(** ** Value parser *)

Section ParserFacts.
Context (lib : Library).

Lemma blank_spec (v : raw) :
  blank v = true <-> v = RNone \/ strip (py_str v) = "".
Proof.
  destruct v as [|b|s]; simpl.
  - split; [left; reflexivity | reflexivity].
  - rewrite String.eqb_eq. split; [right; assumption | intros [[=]|H]; exact H].
  - rewrite String.eqb_eq. split; [right; assumption | intros [[=]|H]; exact H].
Qed.

(** C4. For the integer and the float kind the parser works on the
    trimmed text of the raw value: a null or trimmed-empty input gives
    null; otherwise the result is the number that [int] (resp. [float])
    reads from the trimmed text, and null when that fails, as for ["abc"]
    under the integer kind. *)
Theorem parse_value_number (v : raw) :
  let t := strip (py_str v) in
  ((v = RNone \/ t = "") ->
     parse_value lib v "int" = VNone /\ parse_value lib v "float" = VNone)
  /\ (~ (v = RNone \/ t = "") ->
      parse_value lib v "int"
        = from_option VInt VNone (py_int (int_max_str_digits lib) t)
      /\ parse_value lib v "float" = from_option VFloat VNone (py_float lib t))
  /\ parse_value lib (RStr "abc") "int" = VNone
  /\ parse_value lib (RStr "") "int" = VNone
  /\ parse_value lib (RStr "") "float" = VNone.
Proof.
  intros t. unfold parse_value. simpl String.eqb. cbv iota.
  split; [|split].
  - intros H. apply blank_spec in H. rewrite H. split; reflexivity.
  - intros H. destruct (blank v) eqn:Hb.
    + exfalso. apply H. apply blank_spec. exact Hb.
    + subst t. split.
      * destruct (py_int _ _); reflexivity.
      * destruct (py_float _ _); reflexivity.
  - repeat split.
Qed.

End ParserFacts.

Lemma parse_value_number_witness :
  parse_value sample_lib (RStr " 12 ") "int" = VInt 12
  /\ parse_value sample_lib (RStr "	") "float" = VNone.
Proof.
  split.
  - apply (proj1 (proj1 (proj2 (parse_value_number sample_lib (RStr " 12 ")))
                    ltac:(vm_compute; intros [H|H]; discriminate H))).
  - apply (proj2 (proj1 (parse_value_number sample_lib (RStr "	"))
                    ltac:(right; reflexivity))).
Defined.

(** ** Field typer *)

Section TyperFacts.
Context (lib : Library).

(** C3. A column without values is text.  Otherwise the kind follows
    the column's dtype: boolean for a boolean column, else integer for
    an integer column, else float for a float column; a column of any
    other dtype is float when [pd.to_numeric] accepts its non-null
    values and text when it does not. *)
Theorem infer_input_type_cascade (s : Series) :
  (s_values s = [] -> infer_input_type lib s = "text")
  /\ (s_values s <> [] ->
      (s_dtype s = DBool -> infer_input_type lib s = "bool")
      /\ (s_dtype s = DInt64 \/ s_dtype s = DUInt64 -> infer_input_type lib s = "int")
      /\ (s_dtype s = DFloat64 -> infer_input_type lib s = "float")
      /\ (s_dtype s = DObject ->
          to_numeric_ok lib (filter (fun v => negb (isna v)) (s_values s)) = true ->
          infer_input_type lib s = "float")
      /\ (s_dtype s = DObject ->
          to_numeric_ok lib (filter (fun v => negb (isna v)) (s_values s)) = false ->
          infer_input_type lib s = "text")).
Proof.
  unfold infer_input_type, dropna. destruct s as [d vs]. simpl.
  split.
  - intros ->. reflexivity.
  - intros Hne. destruct vs as [|v vs]; [contradiction|].
    repeat split.
    + intros ->. reflexivity.
    + intros [-> | ->]; reflexivity.
    + intros ->. reflexivity.
    + intros -> H. simpl. rewrite H. reflexivity.
    + intros -> H. simpl. rewrite H. reflexivity.
Qed.

Lemma df_col_spec (d : DataFrame) (c : string) :
  match df_col d c with
  | Some s => (c, s) ∈ d
  | None => c ∉ columns d
  end.
Proof.
  unfold df_col, columns. induction d as [|[c' s'] d IH]; simpl.
  - apply not_elem_of_nil.
  - destruct (String.eqb_spec c' c) as [->|Hne]; simpl.
    + apply list_elem_of_here.
    + destruct (List.find _ d) as [[c2 s2]|]; simpl in *.
      * apply list_elem_of_further, IH.
      * rewrite not_elem_of_cons. split; [congruence | exact IH].
Qed.

Lemma df_col_elem (d : DataFrame) (c : string) :
  c ∈ columns d -> exists s, df_col d c = Some s /\ (c, s) ∈ d.
Proof.
  intros Hc. pose proof (df_col_spec d c) as H.
  destruct (df_col d c) as [s|]; [eauto | contradiction].
Qed.

Lemma df_col_NoDup (d : DataFrame) (c : string) (s : Series) :
  NoDup (columns d) -> (c, s) ∈ d -> df_col d c = Some s.
Proof.
  unfold df_col, columns. induction d as [|[c' s'] d IH]; simpl.
  - intros _ H. inversion H.
  - intros Hnd Hin. apply NoDup_cons in Hnd as [Hnotin Hnd].
    apply elem_of_cons in Hin as [[= -> ->]|Hin].
    + rewrite String.eqb_refl. reflexivity.
    + destruct (String.eqb_spec c' c) as [->|Hne].
      * exfalso. apply Hnotin. apply list_elem_of_fmap. exists (c, s). split; [reflexivity | exact Hin].
      * apply IH; assumption.
Qed.

Lemma kinds_of_lookup (d : DataFrame) (c : string) :
  kinds_of lib d !! c = infer_input_type lib <$> df_col d c.
Proof.
  unfold kinds_of.
  set (f := fun c => (fun s => (c, infer_input_type lib s)) <$> df_col d c).
  assert (Hgen : forall l : list string,
    list_to_map (M := gmap string string) (omap f l) !! c
    = if decide (c ∈ l) then infer_input_type lib <$> df_col d c else None).
  { induction l as [|c' l IH].
    - reflexivity.
    - change (omap f (c' :: l))
        with (match f c' with Some y => y :: omap f l | None => omap f l end).
      unfold f at 1. destruct (df_col d c') as [s|] eqn:Hc'; simpl.
      + destruct (decide (c' = c)) as [->|Hne].
        * rewrite lookup_insert_eq, Hc'. rewrite decide_True by apply list_elem_of_here. reflexivity.
        * rewrite lookup_insert_ne by exact Hne. rewrite IH.
          destruct (decide (c ∈ l)) as [Hl|Hl], (decide (c ∈ c' :: l)) as [Hc|Hc];
            try reflexivity; exfalso.
          -- apply Hc, list_elem_of_further, Hl.
          -- apply elem_of_cons in Hc as [->|Hc]; [apply Hne; reflexivity | exact (Hl Hc)].
      + rewrite IH. destruct (decide (c' = c)) as [->|Hne].
        * rewrite Hc'. destruct (decide (c ∈ l)), (decide (c ∈ c :: l)); reflexivity.
        * destruct (decide (c ∈ l)) as [Hl|Hl], (decide (c ∈ c' :: l)) as [Hc|Hc];
            try reflexivity; exfalso.
          -- apply Hc, list_elem_of_further, Hl.
          -- apply elem_of_cons in Hc as [->|Hc]; [apply Hne; reflexivity | exact (Hl Hc)]. }
  rewrite Hgen. case_decide as Hin; [reflexivity|].
  pose proof (df_col_spec d c) as H. destruct (df_col d c); [|reflexivity].
  exfalso. apply Hin. unfold columns. apply list_elem_of_fmap. eexists; split; [|exact H]. reflexivity.
Qed.

Lemma py_index_elem {A} (l : list A) (i : Z) (x : A) :
  py_index l i = Some x -> x ∈ l.
Proof.
  unfold py_index. repeat case_match; try discriminate;
    intros Hx; apply list_elem_of_lookup; eauto.
Qed.

End TyperFacts.

Lemma infer_input_type_cascade_witness :
  infer_input_type sample_lib (mkSeries DBool []) = "text"
  /\ infer_input_type sample_lib (mkSeries DBool [VBool true]) = "bool"
  /\ infer_input_type sample_lib (mkSeries DInt64 [VInt 1]) = "int"
  /\ infer_input_type sample_lib (mkSeries DFloat64 [VNone]) = "float"
  /\ infer_input_type sample_lib (mkSeries DObject [VStr "12"; VNone]) = "float"
  /\ infer_input_type sample_lib (mkSeries DObject [VStr "x"]) = "text".
Proof.
  split; [|split; [|split; [|split; [|split]]]].
  - apply (proj1 (infer_input_type_cascade sample_lib (mkSeries DBool []))). reflexivity.
  - destruct (proj2 (infer_input_type_cascade sample_lib (mkSeries DBool [VBool true])))
      as (H & _); [discriminate | apply H; reflexivity].
  - destruct (proj2 (infer_input_type_cascade sample_lib (mkSeries DInt64 [VInt 1])))
      as (_ & H & _); [discriminate | apply H; left; reflexivity].
  - destruct (proj2 (infer_input_type_cascade sample_lib (mkSeries DFloat64 [VNone])))
      as (_ & _ & H & _); [discriminate | apply H; reflexivity].
  - destruct (proj2 (infer_input_type_cascade sample_lib
                       (mkSeries DObject [VStr "12"; VNone])))
      as (_ & _ & _ & H & _); [discriminate | apply H; [reflexivity | vm_compute; reflexivity]].
  - destruct (proj2 (infer_input_type_cascade sample_lib (mkSeries DObject [VStr "x"])))
      as (_ & _ & _ & _ & H); [discriminate | apply H; [reflexivity | vm_compute; reflexivity]].
Defined.

(** ** Wizard *)

Section WizardFacts.
Context (lib : Library).

(** C9. On entering a column the draft is seeded: when it has no value
    for the column it gets the boolean false if the column's kind is
    boolean and the empty string for any other kind, the other entries
    staying as they are; when it has one it is left unchanged. *)
Theorem seed_on_entering (d : DataFrame) (i : Z) (c : string) (temp : gmap string raw) :
  py_index (columns d) i = Some c ->
  exists (s : Series) (temp' : gmap string raw),
    df_col d c = Some s
    /\ seed (kinds_of lib d) c temp = Some temp'
    /\ (temp !! c = None ->
        (infer_input_type lib s = "bool" -> temp' !! c = Some (RBool false))
        /\ (infer_input_type lib s <> "bool" -> temp' !! c = Some (RStr ""))
        /\ (forall c', c' <> c -> temp' !! c' = temp !! c'))
    /\ (is_Some (temp !! c) -> temp' = temp).
Proof.
  intros Hi. apply py_index_elem in Hi.
  destruct (df_col_elem d c Hi) as (s & Hs & _).
  unfold seed. rewrite kinds_of_lookup, Hs. simpl.
  destruct (temp !! c) as [v|] eqn:Hv.
  - exists s, temp. repeat split; try discriminate.
  - eexists s, _. split; [reflexivity|]. split; [reflexivity|]. split.
    + intros _. split; [|split].
      * intros ->. simpl. apply lookup_insert_eq.
      * intros Hk. rewrite lookup_insert_eq.
        destruct (String.eqb_spec (infer_input_type lib s) "bool"); [contradiction | reflexivity].
      * intros c' Hc'. apply lookup_insert_ne. congruence.
    + intros [v Hv']. discriminate.
Qed.

Lemma concat_row_columns (d d' : DataFrame) (row : gmap string value) :
  concat_row lib d row = Some d' -> columns d' = columns d.
Proof.
  unfold concat_row. case_bool_decide; [|discriminate]. intros [= <-].
  unfold columns. rewrite <- list_fmap_compose. reflexivity.
Qed.

Lemma concat_column_length (s : Series) (v : value) :
  length (s_values (concat_column lib s v)) = S (length (s_values s)).
Proof. unfold concat_column. simpl. rewrite length_fmap, length_app. simpl. lia. Qed.

(** The table grows: it is not the table it was. *)
Lemma concat_row_ne (d d' : DataFrame) (row : gmap string value) :
  d <> [] -> concat_row lib d row = Some d' -> d' <> d.
Proof.
  unfold concat_row. intros Hne. case_bool_decide; [|discriminate]. intros [= <-] Heq.
  destruct d as [|[c s] d]; [contradiction|].
  simpl in Heq. injection Heq as Hs _.
  apply (f_equal (fun x => length (s_values x))) in Hs.
  rewrite concat_column_length in Hs. lia.
Qed.

Lemma save_row_inv (kinds : gmap string string) (cols : list string) (st st' : state)
    (row : gmap string value) :
  save_row lib kinds cols st = Some (row, st') ->
  exists new_df,
    final_row lib kinds (temp_row st) cols = Some row
    /\ concat_row lib (df st) row = Some new_df
    /\ st' = mkState (csv_path st) new_df 0 ∅
               (save_csv_atomic lib new_df (csv_path st) (files st)).
Proof.
  unfold save_row. intros H.
  destruct (final_row _ _ _ _) as [row'|] eqn:Hrow; [|discriminate]. simpl in H.
  destruct (concat_row _ _ _) as [new_df|] eqn:Hcat; [|discriminate]. simpl in H.
  injection H as <- <-. exists new_df. repeat split. exact Hcat.
Qed.

(** However a run of the wizard ends after the form, the session is the
    one the buttons under the form leave. *)
Lemma after_utility_row (inp : inputs) (total : Z) (st : state) :
  after (utility_row inp total st)
  = if click_eqb (clicked inp) ResetWizard then reset_wizard true st
    else if click_eqb (clicked inp) JumpFirst then set_idx 0 st
    else if click_eqb (clicked inp) JumpLast then set_idx (total - 1) st
    else st.
Proof. unfold utility_row. repeat (destruct (click_eqb _ _); [reflexivity|]). reflexivity. Qed.

Lemma columns_length_pos (d : DataFrame) : d <> [] -> (0 < length (columns d))%nat.
Proof. destruct d; [contradiction | simpl; lia]. Qed.

(** What a run of the wizard does to the position, whatever the click. *)
Lemma run_wizard_idx (inp : inputs) (st : state) :
  let n := Z.of_nat (length (columns (df st))) in
  let st' := after (run_wizard lib inp st) in
  columns (df st') = columns (df st)
  /\ (wizard_idx st' = wizard_idx st
      \/ (clicked inp = GoBack /\ 0 < wizard_idx st /\ wizard_idx st' = wizard_idx st - 1)
      \/ (clicked inp = GoNext /\ wizard_idx st < n - 1 /\ wizard_idx st' = wizard_idx st + 1)
      \/ (clicked inp = SaveDone /\ wizard_idx st = n - 1 /\ wizard_idx st' = 0)
      \/ ((clicked inp = ResetWizard \/ clicked inp = JumpFirst) /\ wizard_idx st' = 0)
      \/ (clicked inp = JumpLast /\ wizard_idx st' = n - 1))%Z.
Proof.
  intros n st'. subst st'. unfold run_wizard. fold n.
  destruct (py_index _ _) as [cur|]; [|simpl; auto].
  destruct (wizard_idx st + 1 <? 0)%Z; [simpl; auto|].
  destruct (seed _ _ _) as [seeded|]; [|simpl; auto].
  destruct (kinds_of lib (df st) !! cur) as [kind|]; [|simpl; auto].
  cbv zeta. unfold utility_row.
  set (st1 := set_temp_row _ st).
  destruct (clicked inp) eqn:Hc; simpl.
  - auto.
  - auto.
  - destruct (Z.ltb_spec 0 (wizard_idx st)); simpl; [|auto].
    split; [reflexivity|]. right; left. auto.
  - destruct (Z.ltb_spec (wizard_idx st) (n - 1)); simpl; [|auto].
    split; [reflexivity|]. right; right; left. auto.
  - destruct (Z.eqb_spec (wizard_idx st) (n - 1)) as [Heq|Hne]; simpl; [|auto].
    destruct (save_row _ _ _ _) as [[row st2]|] eqn:Hs; simpl; [|auto].
    apply save_row_inv in Hs as (new_df & _ & Hcat & ->).
    assert (Hgoal : columns new_df = columns (df st) /\ (0 = 0)%Z)
      by (split; [eapply concat_row_columns; exact Hcat | reflexivity]).
    destruct (preview_ok _ _); simpl; (split; [apply Hgoal|]);
      right; right; right; left; auto.
  - split; [reflexivity|]. do 4 right. left. auto.
  - split; [reflexivity|]. do 4 right. left. auto.
  - split; [reflexivity|]. do 5 right. auto.
Qed.

Lemma run_position (inp : inputs) (st : state) :
  position_ok st -> position_ok (after (run lib inp st)).
Proof.
  intros Hok. unfold run. destruct (df st) as [|p d] eqn:Hdf.
  - simpl. unfold run_headers. destruct (click_eqb _ _); [|exact Hok].
    destruct (filter _ _) as [|c cols] eqn:Hcols; [exact Hok|].
    right. simpl. lia.
  - destruct Hok as [[Hnil _]|Hidx]; [congruence|].
    pose proof (run_wizard_idx inp st) as [Hcols Hcases]. cbv zeta in Hcases.
    right. rewrite Hcols. lia.
Qed.

Lemma start_position (fs : filesystem) : position_ok (start lib fs).
Proof.
  unfold start. destruct (load_csv _ _ _) as [d fs'].
  destruct d as [|p d]; [left; split; reflexivity | right; simpl; lia].
Qed.

Lemma reachable_position (fs : filesystem) (st : state) :
  reachable lib fs st -> position_ok st.
Proof.
  induction 1 as [|inp st _ IH]; [apply start_position | apply run_position, IH].
Qed.

(** C1. In every session the script can reach, a table with at least
    one column has the wizard at a valid index, [0 <= index < N]; and
    from any such session Back at index 0 and Next at index [N-1] leave
    the index where it is. *)
Theorem wizard_idx_valid (fs : filesystem) (st : state) :
  reachable lib fs st ->
  df st <> [] ->
  let n := Z.of_nat (length (columns (df st))) in
  (0 <= wizard_idx st < n)%Z
  /\ (forall inp, clicked inp = GoBack -> wizard_idx st = 0%Z ->
        wizard_idx (after (run lib inp st)) = 0%Z)
  /\ (forall inp, clicked inp = GoNext -> wizard_idx st = (n - 1)%Z ->
        wizard_idx (after (run lib inp st)) = (n - 1)%Z).
Proof.
  intros Hreach Hne n.
  assert (Hrun : forall inp, run lib inp st = run_wizard lib inp st).
  { intros inp. unfold run. destruct (df st); [contradiction | reflexivity]. }
  split; [|split].
  - destruct (reachable_position fs st Hreach) as [[Hnil _]|Hidx]; [contradiction | exact Hidx].
  - intros inp Hc H0. rewrite Hrun.
    pose proof (run_wizard_idx inp st) as [_ Hcases]. cbv zeta in Hcases.
    rewrite Hc in Hcases.
    destruct Hcases as [H|[H|[H|[H|[H|H]]]]]; try lia;
      try (destruct H as [[=] _]); try (destruct H as [[[=]|[=]] _]).
  - intros inp Hc Hn. rewrite Hrun.
    pose proof (run_wizard_idx inp st) as [_ Hcases]. cbv zeta in Hcases. fold n in Hcases.
    rewrite Hc in Hcases.
    destruct Hcases as [H|[H|[H|[H|[H|H]]]]]; try lia;
      try (destruct H as [[=] _]); try (destruct H as [[[=]|[=]] _]).
Qed.

Lemma seed_other (kinds : gmap string string) (c : string) (temp temp' : gmap string raw) :
  seed kinds c temp = Some temp' -> forall c', c' <> c -> temp' !! c' = temp !! c'.
Proof.
  unfold seed. destruct (temp !! c).
  - intros [= <-]. reflexivity.
  - destruct (kinds !! c); simpl; [|discriminate].
    intros [= <-] c' Hc'. apply lookup_insert_ne. congruence.
Qed.

Lemma seed_total (kinds : gmap string string) (c : string) (temp : gmap string raw) :
  is_Some (kinds !! c) -> is_Some (seed kinds c temp).
Proof.
  intros [k Hk]. unfold seed. rewrite Hk. destruct (temp !! c); simpl; eauto.
Qed.

(** The parsed row has, for each column, the draft value parsed by the
    column's kind. *)
Lemma final_row_spec (d : DataFrame) (temp : gmap string raw) (cols : list string) :
  (forall c, c ∈ cols -> c ∈ columns d) ->
  exists row,
    final_row lib (kinds_of lib d) temp cols = Some row
    /\ forall c s, c ∈ cols -> df_col d c = Some s ->
         row !! c = Some (parse_value lib (default (RStr "") (temp !! c))
                                      (infer_input_type lib s)).
Proof.
  unfold final_row. generalize (∅ : gmap string value) as acc.
  induction cols as [|c cols IH]; intros acc Hsub.
  - exists acc. split; [reflexivity|]. intros c s Hc. inversion Hc.
  - simpl. destruct (df_col_elem d c) as (s & Hs & _); [apply Hsub; left|].
    rewrite kinds_of_lookup, Hs. simpl.
    destruct (IH (<[c := parse_value lib (default (RStr "") (temp !! c))
                          (infer_input_type lib s)]> acc)) as (row & Hrow & Hlook).
    { intros c' Hc'. apply Hsub. right. exact Hc'. }
    exists row. split; [exact Hrow|].
    intros c' s' Hc' Hs'.
    destruct (decide (c' ∈ cols)) as [Hin|Hnotin]; [apply Hlook; assumption|].
    apply elem_of_cons in Hc' as [->|Hc']; [|contradiction].
    assert (s' = s) as -> by congruence.
    clear - Hrow Hnotin.
    assert (Hkeep : forall (l : list string) (a : gmap string value) (r : gmap string value),
      foldl (fun acc c => row ← acc; kind ← kinds_of lib d !! c;
               Some (<[c := parse_value lib (default (RStr "") (temp !! c)) kind]> row))
            (Some a) l = Some r ->
      forall k, k ∉ l -> r !! k = a !! k).
    { induction l as [|x l IHl]; intros a r Hf k Hk.
      - injection Hf as <-. reflexivity.
      - simpl in Hf. apply not_elem_of_cons in Hk as [Hkx Hk].
        destruct (kinds_of lib d !! x) as [kx|]; simpl in Hf.
        + rewrite (IHl _ _ Hf k Hk). apply lookup_insert_ne. congruence.
        + exfalso. clear - Hf. induction l as [|y l IHl']; [discriminate | exact (IHl' Hf)]. }
    rewrite (Hkeep _ _ _ Hrow c Hnotin). apply lookup_insert_eq.
Qed.

Lemma run_is_run_wizard (inp : inputs) (st : state) :
  df st <> [] -> run lib inp st = run_wizard lib inp st.
Proof. unfold run. destruct (df st); [contradiction | reflexivity]. Qed.

Lemma py_index_last {A} (l : list A) :
  l <> [] -> exists x, py_index l (Z.of_nat (length l) - 1) = Some x.
Proof.
  intros Hne. unfold py_index.
  destruct l as [|a l]; [contradiction|].
  destruct (Z.leb_spec 0 (Z.of_nat (length (a :: l)) - 1)) as [_|Hlt]; [|simpl in Hlt; lia].
  apply lookup_lt_is_Some. simpl. lia.
Qed.

(** How a run that ends with the session [st] ends: by returning, or
    by an exception. *)
Lemma after_ended (ok : bool) (st : state) :
  after (if ok then Returned st else Raised st) = st.
Proof. destruct ok; reflexivity. Qed.

Lemma forallb_fmap {A B} (f : B -> bool) (g : A -> B) (l : list A) :
  forallb f (g <$> l) = forallb (fun x => f (g x)) l.
Proof. induction l as [|x l IH]; [reflexivity|]. simpl. f_equal. exact IH. Qed.

Lemma forallb_ext_in {A} (f g : A -> bool) (l : list A) :
  (forall x, x ∈ l -> f x = g x) -> forallb f l = forallb g l.
Proof.
  induction l as [|x l IH]; [reflexivity|]. intros H. simpl.
  rewrite (H x) by apply list_elem_of_here. rewrite IH; [reflexivity|].
  intros y Hy. apply H. apply list_elem_of_further, Hy.
Qed.

(** The save branch in full: pressed at the last field of a table with
    distinct labels, Save extends every column by its draft value
    parsed by the column's kind, writes the table and resets the
    session; the run then returns, or ends in the preview when a cell
    of the row cannot be shown. *)
Lemma run_save (inp : inputs) (st : state) :
  df st <> [] ->
  NoDup (columns (df st)) ->
  clicked inp = SaveDone ->
  wizard_idx st = (Z.of_nat (length (columns (df st))) - 1)%Z ->
  exists cur s_cur,
    py_index (columns (df st)) (wizard_idx st) = Some cur
    /\ df_col (df st) cur = Some s_cur
    /\ let new_df :=
         (fun p : string * Series =>
            (p.1, concat_column lib p.2 (saved_cell lib inp st cur s_cur p))) <$> df st in
       let st' := mkState (csv_path st) new_df 0 ∅
                    (save_csv_atomic lib new_df (csv_path st) (files st)) in
       run lib inp st
       = if forallb (fun p => arrow_ok (saved_cell lib inp st cur s_cur p)) (df st)
         then Returned st' else Raised st'.
Proof.
  intros Hne Hnd Hc Hidx.
  rewrite run_is_run_wizard by exact Hne. unfold run_wizard.
  assert (Hcols : columns (df st) <> []).
  { unfold columns. destruct (df st); [contradiction | discriminate]. }
  destruct (py_index_last _ Hcols) as [cur Hcur]. rewrite <- Hidx in Hcur.
  rewrite Hcur.
  assert (Hprog : (wizard_idx st + 1 <? 0)%Z = false) by (apply Z.ltb_ge; lia).
  rewrite Hprog.
  destruct (df_col_elem (df st) cur (py_index_elem _ _ _ Hcur)) as (s_cur & Hs & _).
  assert (Hk : kinds_of lib (df st) !! cur = Some (infer_input_type lib s_cur)).
  { rewrite kinds_of_lookup, Hs. reflexivity. }
  destruct (seed_total (kinds_of lib (df st)) cur (temp_row st)) as [seeded Hseed]; [eauto|].
  rewrite Hseed, Hk. cbv zeta. rewrite Hc. simpl click_eqb. simpl andb.
  rewrite (proj2 (Z.eqb_eq _ _) Hidx).
  set (val := if String.eqb (infer_input_type lib s_cur) "bool"
              then RBool (checked inp) else RStr (text inp)).
  set (temp2 := <[cur := val]> seeded).
  destruct (final_row_spec (df st) temp2 (columns (df st))) as (row & Hrow & Hlook);
    [auto|].
  assert (Hcell : forall p : string * Series, p ∈ df st ->
            default VNone (row !! p.1) = saved_cell lib inp st cur s_cur p).
  { intros [c s] Hin. simpl.
    assert (Hcs : df_col (df st) c = Some s) by (apply df_col_NoDup; assumption).
    assert (Hcin : c ∈ columns (df st)).
    { unfold columns. apply list_elem_of_fmap. exists (c, s). split; [reflexivity | exact Hin]. }
    rewrite (Hlook c s Hcin Hcs). simpl. unfold saved_cell. simpl. f_equal.
    unfold draft_value, temp2. fold val.
    destruct (String.eqb_spec c cur) as [->|Hne'].
    - rewrite lookup_insert_eq. reflexivity.
    - rewrite lookup_insert_ne by congruence.
      rewrite (seed_other _ _ _ _ Hseed c Hne'). reflexivity. }
  unfold save_row. simpl. rewrite Hrow. simpl.
  unfold concat_row. rewrite bool_decide_eq_true_2 by exact Hnd. simpl.
  exists cur, s_cur. split; [reflexivity|]. split; [exact Hs|]. cbv zeta.
  assert (Hdf : (fun p : string * Series =>
                   (p.1, concat_column lib p.2 (default VNone (row !! p.1)))) <$> df st
                = (fun p : string * Series =>
                     (p.1, concat_column lib p.2 (saved_cell lib inp st cur s_cur p))) <$> df st).
  { apply Forall_fmap_ext_1, Forall_forall. intros p Hp. rewrite (Hcell p Hp). reflexivity. }
  assert (Hshow : preview_ok (columns (df st)) row
                  = forallb (fun p => arrow_ok (saved_cell lib inp st cur s_cur p)) (df st)).
  { unfold preview_ok, columns. rewrite forallb_fmap. apply forallb_ext_in.
    intros p Hp. rewrite (Hcell p Hp). reflexivity. }
  rewrite Hshow, Hdf. unfold utility_row. rewrite Hc.
  destruct (forallb _ _); reflexivity.
Qed.

(** A run of the wizard either leaves table and files alone or is the
    save branch, taken on Save at the last field. *)
Lemma run_wizard_effect (inp : inputs) (st : state) :
  let st' := after (run_wizard lib inp st) in
  (df st' = df st /\ files st' = files st)
  \/ (clicked inp = SaveDone
      /\ wizard_idx st = (Z.of_nat (length (columns (df st))) - 1)%Z
      /\ wizard_idx st' = 0%Z /\ temp_row st' = ∅
      /\ exists row, concat_row lib (df st) row = Some (df st')).
Proof.
  intros st'. subst st'. unfold run_wizard.
  destruct (py_index _ _) as [cur|]; [|simpl; auto].
  destruct (wizard_idx st + 1 <? 0)%Z; [simpl; auto|].
  destruct (seed _ _ _) as [seeded|]; [|simpl; auto].
  destruct (kinds_of lib (df st) !! cur) as [kind|]; [|simpl; auto].
  cbv zeta. unfold utility_row.
  destruct (clicked inp) eqn:Hc; simpl; auto.
  - destruct (0 <? wizard_idx st)%Z; simpl; auto.
  - destruct (wizard_idx st <? _)%Z; simpl; auto.
  - destruct (Z.eqb_spec (wizard_idx st) (Z.of_nat (length (columns (df st))) - 1))
      as [Heq|Hne]; simpl; [|auto].
    destruct (save_row _ _ _ _) as [[row st2]|] eqn:Hs; simpl; [|auto].
    apply save_row_inv in Hs as (new_df & _ & Hcat & ->).
    right. destruct (preview_ok _ _); simpl; eauto 10.
Qed.

Lemma appended_ne (d : DataFrame) (f : string * Series -> value) :
  d <> [] ->
  (fun p : string * Series => (p.1, concat_column lib p.2 (f p))) <$> d <> d.
Proof.
  intros Hne Heq. destruct d as [|[c s] d]; [contradiction|].
  simpl in Heq. injection Heq as Hs _.
  apply (f_equal (fun x => length (s_values x))) in Hs.
  rewrite concat_column_length in Hs. lia.
Qed.

(** C2. With a table of [N >= 1] columns, a run that changes the table
    is a Save pressed at index [N-1], and it leaves the index at 0 and
    the draft empty; any other run leaves table and files as they were.
    Conversely Save pressed at index [N-1] does change the table. *)
Theorem save_only_at_last (inp : inputs) (st : state) :
  df st <> [] ->
  let n := Z.of_nat (length (columns (df st))) in
  let st' := after (run lib inp st) in
  (df st' <> df st ->
     clicked inp = SaveDone /\ wizard_idx st = (n - 1)%Z
     /\ wizard_idx st' = 0%Z /\ temp_row st' = ∅)
  /\ (df st' = df st -> files st' = files st)
  /\ (clicked inp = SaveDone -> wizard_idx st = (n - 1)%Z -> NoDup (columns (df st)) ->
      df st' <> df st /\ wizard_idx st' = 0%Z /\ temp_row st' = ∅).
Proof.
  intros Hne n st'. subst st'.
  split; [|split].
  - rewrite run_is_run_wizard by exact Hne.
    destruct (run_wizard_effect inp st) as [[Hdf _]|(Hc & Hidx & H0 & Ht & _)];
      [contradiction | intros _; auto].
  - rewrite run_is_run_wizard by exact Hne. intros Hdf.
    pose proof (run_wizard_effect inp st) as [[_ Hf]|(_ & _ & _ & _ & row & Hcat)];
      [exact Hf|].
    exfalso. rewrite Hdf in Hcat.
    exact (concat_row_ne _ _ _ Hne Hcat eq_refl).
  - intros Hc Hidx Hnd.
    destruct (run_save inp st Hne Hnd Hc Hidx) as (cur & s_cur & _ & _ & Hrun).
    cbv zeta in Hrun. rewrite Hrun, after_ended. simpl.
    split; [|split; reflexivity].
    apply appended_ne, Hne.
Qed.


Lemma forallb_false_elem {A} (f : A -> bool) (l : list A) :
  forallb f l = false -> exists x, x ∈ l /\ f x = false.
Proof.
  induction l as [|x l IH]; [discriminate|]. simpl.
  destruct (f x) eqn:Hx.
  - intros H. destruct (IH H) as (y & Hy & Hfy). exists y.
    split; [apply list_elem_of_further, Hy | exact Hfy].
  - intros _. exists x. split; [apply list_elem_of_here | exact Hx].
Qed.

Lemma arrow_ok_false (v : value) :
  arrow_ok v = false -> exists n, v = VInt n /\ ~ (INT64_MIN <= n <= UINT64_MAX)%Z.
Proof.
  destruct v as [| |n| |]; try discriminate. simpl. intros H.
  exists n. split; [reflexivity|]. intros [Hlo Hhi].
  apply andb_false_iff in H as [H|H]; apply Z.leb_gt in H; lia.
Qed.


(** What a run of the wizard does to the draft. *)
Lemma run_wizard_draft (inp : inputs) (st : state) :
  let st' := after (run_wizard lib inp st) in
  temp_row st' = ∅
  \/ (df st' = df st
      /\ (temp_row st' = temp_row st
          \/ exists cur seeded kind,
               seed (kinds_of lib (df st)) cur (temp_row st) = Some seeded
               /\ kinds_of lib (df st) !! cur = Some kind
               /\ temp_row st'
                  = <[cur := if String.eqb kind "bool"
                             then RBool (checked inp) else RStr (text inp)]> seeded)).
Proof.
  intros st'. subst st'. unfold run_wizard.
  destruct (py_index _ _) as [cur|]; [|simpl; auto].
  destruct (wizard_idx st + 1 <? 0)%Z; [simpl; auto|].
  destruct (seed _ _ _) as [seeded|] eqn:Hseed; [|simpl; auto].
  destruct (kinds_of lib (df st) !! cur) as [kind|] eqn:Hk; [|simpl; auto].
  cbv zeta. unfold utility_row.
  assert (Hkept : forall d : DataFrame, d = df st ->
    <[cur := if String.eqb kind "bool" then RBool (checked inp) else RStr (text inp)]> seeded
      = ∅
    \/ (d = df st
        /\ (<[cur := if String.eqb kind "bool"
                      then RBool (checked inp) else RStr (text inp)]> seeded = temp_row st
            \/ exists cur' seeded' kind',
                 seed (kinds_of lib (df st)) cur' (temp_row st) = Some seeded'
                 /\ kinds_of lib (df st) !! cur' = Some kind'
                 /\ <[cur := if String.eqb kind "bool"
                              then RBool (checked inp) else RStr (text inp)]> seeded
                    = <[cur' := if String.eqb kind' "bool"
                                then RBool (checked inp) else RStr (text inp)]> seeded'))).
  { intros d ->. right. split; [reflexivity|]. right. eauto 10. }
  destruct (clicked inp) eqn:Hc; simpl.
  - apply Hkept. reflexivity.
  - apply Hkept. reflexivity.
  - destruct (0 <? wizard_idx st)%Z; simpl; apply Hkept; reflexivity.
  - destruct (wizard_idx st <? _)%Z; simpl; apply Hkept; reflexivity.
  - destruct (wizard_idx st =? _)%Z; simpl; [|apply Hkept; reflexivity].
    destruct (save_row _ _ _ _) as [[row st2]|] eqn:Hs; simpl; [|apply Hkept; reflexivity].
    apply save_row_inv in Hs as (new_df & _ & _ & ->).
    destruct (preview_ok _ _); simpl; left; reflexivity.
  - left. reflexivity.
  - apply Hkept. reflexivity.
  - apply Hkept. reflexivity.
Qed.

Lemma run_draft_typed (inp : inputs) (st : state) :
  draft_typed (kinds_of lib (df st)) (temp_row st) ->
  let st' := after (run lib inp st) in
  draft_typed (kinds_of lib (df st')) (temp_row st').
Proof.
  intros Hty st'. subst st'.
  assert (Hempty : forall kinds, draft_typed kinds ∅).
  { intros kinds c v kind Hc. rewrite lookup_empty in Hc. discriminate. }
  unfold run. destruct (df st) as [|p d] eqn:Hdf.
  - simpl. unfold run_headers. destruct (click_eqb _ _); [|rewrite Hdf; exact Hty].
    destruct (filter _ _); [rewrite Hdf; exact Hty | apply Hempty].
  - rewrite <- Hdf in *.
    destruct (run_wizard_draft inp st) as [->|[-> [->|Hset]]];
      [apply Hempty | exact Hty |].
    destruct Hset as (cur & seeded & kind & Hseed & Hk & ->).
    intros c v k Hc Hkc.
    destruct (decide (c = cur)) as [->|Hne].
    + rewrite lookup_insert_eq in Hc. injection Hc as <-.
      assert (k = kind) as -> by congruence.
      destruct (String.eqb kind "bool"); eauto.
    + rewrite lookup_insert_ne in Hc by congruence.
      rewrite (seed_other _ _ _ _ Hseed c Hne) in Hc.
      exact (Hty c v k Hc Hkc).
Qed.

Lemma reachable_draft_typed (fs : filesystem) (st : state) :
  reachable lib fs st -> draft_typed (kinds_of lib (df st)) (temp_row st).
Proof.
  induction 1 as [|inp st _ IH].
  - unfold start. destruct (load_csv _ _ _) as [d fs']. simpl.
    intros c v kind Hc. rewrite lookup_empty in Hc. discriminate.
  - apply run_draft_typed, IH.
Qed.

(** C5 (amended). For the boolean kind the parser returns the truth
    value of the raw value: a raw boolean is returned as it is, so the
    boolean [False] gives false; a string gives false exactly when it is
    empty, so the string ["False"] gives true.  In every session the
    script can reach, the draft of a boolean column is a raw boolean. *)
Theorem parse_value_bool :
  (forall b : bool, parse_value lib (RBool b) "bool" = VBool b)
  /\ parse_value lib (RBool false) "bool" = VBool false
  /\ (forall s : string, parse_value lib (RStr s) "bool" = VBool (negb (String.eqb s "")))
  /\ parse_value lib (RStr "") "bool" = VBool false
  /\ parse_value lib (RStr "False") "bool" = VBool true
  /\ (forall (fs : filesystem) (st : state) (c : string) (v : raw),
        reachable lib fs st ->
        kinds_of lib (df st) !! c = Some "bool" ->
        temp_row st !! c = Some v ->
        exists b, v = RBool b /\ parse_value lib v "bool" = VBool b).
Proof.
  repeat split.
  intros fs st c v Hreach Hk Hv.
  destruct (reachable_draft_typed fs st Hreach c v "bool" Hv Hk) as [b ->].
  exists b. split; reflexivity.
Qed.


End WizardFacts.

(** At the sample library the string ["False"] is parsed as true under
    the boolean kind, not as false. *)
Lemma parse_value_bool_False_string :
  parse_value sample_lib (RStr "False") "bool" <> VBool false.
Proof. vm_compute. discriminate. Qed.

Lemma parse_value_bool_witness :
  let st := after (run sample_lib (mkInputs "" true "" NoClick)
                     (start sample_lib sample_bool_files)) in
  exists b, temp_row st !! "F" = Some (RBool b)
            /\ parse_value sample_lib (RBool b) "bool" = VBool b.
Proof.
  intros st.
  destruct (proj2 (proj2 (proj2 (proj2 (proj2 (parse_value_bool sample_lib)))))
              sample_bool_files st "F" (RBool true)) as (b & Hb & Hparse).
  - apply reach_run, reach_start.
  - vm_compute. reflexivity.
  - vm_compute. reflexivity.
  - exists b. injection Hb as <-. split; [vm_compute; reflexivity | exact Hparse].
Defined.

Lemma sample_table_NoDup : NoDup (columns sample_table).
Proof. apply (bool_decide_unpack _). vm_compute. exact I. Defined.

Lemma wizard_idx_valid_witness :
  let st := start sample_lib sample_files in
  df st = sample_table
  /\ (0 <= wizard_idx st < 2)%Z
  /\ wizard_idx (after (run sample_lib (mkInputs "" false "" GoBack) st)) = 0%Z.
Proof.
  intros st.
  assert (Hdf : df st = sample_table) by (vm_compute; reflexivity).
  assert (Hne : df st <> []) by (rewrite Hdf; discriminate).
  destruct (wizard_idx_valid sample_lib sample_files st (reach_start _ _) Hne)
    as (Hidx & Hback & _).
  split; [exact Hdf|]. split.
  - rewrite Hdf in Hidx. exact Hidx.
  - apply Hback; reflexivity.
Defined.

Lemma save_only_at_last_witness :
  let st' := after (run sample_lib sample_save sample_state) in
  df st' <> df sample_state /\ wizard_idx st' = 0%Z /\ temp_row st' = ∅.
Proof.
  intros st'.
  assert (Hne : df sample_state <> []) by discriminate.
  apply (proj2 (proj2 (save_only_at_last sample_lib sample_save sample_state Hne)));
    [reflexivity | reflexivity | exact sample_table_NoDup].
Defined.

Lemma seed_on_entering_witness :
  exists temp',
    seed (kinds_of sample_lib sample_table) "B" {[ "A" := RStr "5" ]} = Some temp'
    /\ temp' !! "B" = Some (RStr "") /\ temp' !! "A" = Some (RStr "5").
Proof.
  destruct (seed_on_entering sample_lib sample_table 1 "B" {[ "A" := RStr "5" ]} eq_refl)
    as (s & temp' & Hs & Hseed & Hnew & _).
  exists temp'. split; [exact Hseed|].
  assert (Hnone : ({[ "A" := RStr "5" ]} : gmap string raw) !! "B" = None)
    by (vm_compute; reflexivity).
  destruct (Hnew Hnone) as (_ & Htext & Hother).
  vm_compute in Hs. injection Hs as <-.
  split.
  - apply Htext. vm_compute. discriminate.
  - rewrite Hother by discriminate. vm_compute. reflexivity.
Defined.


(** An entry beyond the signed 64-bit range is parsed as that integer
    and stored as a float, in a column that has become float64. *)
Example save_big_int_ex :
  parse_value sample_lib (RStr "9223372036854775809") "int" = VInt 9223372036854775809
  /\ df (after (run sample_lib sample_big_save sample_ints))
     = [("A", mkSeries DFloat64 [VFloat 1; VFloat 9223372036854775808])]
  /\ to_csv sample_lib (df (after (run sample_lib sample_big_save sample_ints)))
     = [["A"]; ["1.0"]; ["9223372036854775808.0"]].
Proof. vm_compute. repeat split. Qed.


(** ** Table store *)

Section StoreFacts.
Context (lib : Library).

Lemma tmp_path_ne (path : string) : tmp_path path <> path.
Proof.
  unfold tmp_path. induction path as [|c p IH]; [discriminate|].
  intros H. apply IH.
  change (String c (p ++ ".tmp")%string = String c p) in H. congruence.
Qed.

Lemma save_csv_atomic_lookup (d : DataFrame) (path : string) (fs : filesystem) :
  save_csv_atomic lib d path fs !! path = Some (to_csv lib d).
Proof.
  unfold save_csv_atomic, os_replace. cbv zeta. rewrite lookup_insert_eq. apply lookup_insert_eq.
Qed.

(** C8. [load_csv] always returns a table.  Where the path holds no
    file it stores the serialization of the empty table there, a file
    without a single field, and returns the empty table; where the file
    parses it returns the parsed table; where parsing fails it returns
    the empty table.  In the last two cases the files are left alone. *)
Theorem load_csv_cases (path : string) (fs : filesystem) :
  (fs !! path = None ->
     load_csv lib path fs = ([], <[path := to_csv lib []]> fs)
     /\ concat (to_csv lib []) = [])
  /\ (forall f d, fs !! path = Some f -> read_csv lib f = Some d ->
        load_csv lib path fs = (d, fs))
  /\ (forall f, fs !! path = Some f -> read_csv lib f = None ->
        load_csv lib path fs = ([], fs)).
Proof.
  unfold load_csv. split; [|split].
  - intros ->. split; reflexivity.
  - intros f d -> ->. reflexivity.
  - intros f -> ->. reflexivity.
Qed.

(** C7. While [save_csv_atomic] runs, every file store an observer can
    see holds at the target path either what it held before or the
    whole serialization of the new table: the writes go to the sibling
    [path.tmp], and the rename puts the whole file in place in one
    step.  At the end the target holds the new table's serialization,
    the temporary file is gone and no other file has changed. *)
Theorem save_csv_atomic_trace (partials : list file) (d : DataFrame) (path : string)
    (fs : filesystem) :
  let trace := save_trace lib partials d path fs in
  Forall (fun s : filesystem =>
            s !! path = fs !! path \/ s !! path = Some (to_csv lib d)) trace
  /\ (forall (i : nat) (s : filesystem), trace !! i = Some s -> S i < length trace ->
        s !! path = fs !! path)
  /\ last trace = Some (save_csv_atomic lib d path fs)
  /\ save_csv_atomic lib d path fs !! path = Some (to_csv lib d)
  /\ save_csv_atomic lib d path fs !! tmp_path path = None
  /\ (forall p, p <> path -> p <> tmp_path path ->
        save_csv_atomic lib d path fs !! p = fs !! p).
Proof.
  intros trace. subst trace. unfold save_trace.
  pose proof (tmp_path_ne path) as Hne.
  assert (Hbefore : Forall (fun s : filesystem => s !! path = fs !! path)
            (fs :: ((fun c => <[tmp_path path := c]> fs) <$> (partials ++ [to_csv lib d])))).
  { constructor; [reflexivity|]. apply Forall_fmap, Forall_forall.
    intros c _. simpl. apply lookup_insert_ne. exact Hne. }
  split; [|split; [|split; [|split; [|split]]]].
  - change (fs :: ?l ++ ?t) with ((fs :: l) ++ t).
    apply Forall_app. split.
    + eapply Forall_impl; [exact Hbefore|]. intros s Hs. left. exact Hs.
    + constructor; [|constructor]. right. apply save_csv_atomic_lookup.
  - intros i s Hi Hlt.
    change (fs :: ?l ++ ?t) with ((fs :: l) ++ t) in Hi, Hlt.
    rewrite length_app in Hlt. simpl in Hlt.
    rewrite lookup_app_l in Hi by (simpl; lia).
    rewrite Forall_forall in Hbefore. apply Hbefore.
    apply list_elem_of_lookup. eauto.
  - change (fs :: ?l ++ ?t) with ((fs :: l) ++ t). apply last_snoc.
  - apply save_csv_atomic_lookup.
  - unfold save_csv_atomic, os_replace. cbv zeta. rewrite lookup_insert_eq.
    rewrite lookup_insert_ne by congruence. apply lookup_delete_eq.
  - intros p Hp Htmp. unfold save_csv_atomic, os_replace. cbv zeta. rewrite lookup_insert_eq.
    rewrite lookup_insert_ne by congruence.
    rewrite lookup_delete_ne by congruence.
    apply lookup_insert_ne. congruence.
Qed.

End StoreFacts.

Lemma load_csv_cases_witness :
  load_csv sample_lib DEFAULT_CSV_PATH ∅ = ([], {[ DEFAULT_CSV_PATH := [[]] ]})
  /\ load_csv sample_lib DEFAULT_CSV_PATH sample_files = (sample_table, sample_files)
  /\ load_csv sample_lib DEFAULT_CSV_PATH {[ DEFAULT_CSV_PATH := [] ]}
     = ([], {[ DEFAULT_CSV_PATH := [] ]}).
Proof.
  split; [|split].
  - apply (proj1 (load_csv_cases sample_lib DEFAULT_CSV_PATH ∅)). reflexivity.
  - apply (proj1 (proj2 (load_csv_cases sample_lib DEFAULT_CSV_PATH sample_files))
             [["A"; "B"]; ["1"; "x"]]); vm_compute; reflexivity.
  - apply (proj2 (proj2 (load_csv_cases sample_lib DEFAULT_CSV_PATH
                           {[ DEFAULT_CSV_PATH := [] ]})) []); vm_compute; reflexivity.
Defined.

Lemma save_csv_atomic_trace_witness :
  Forall (fun s : filesystem =>
            s !! DEFAULT_CSV_PATH = Some [["A"; "B"]; ["1"; "x"]]
            \/ s !! DEFAULT_CSV_PATH = Some (to_csv sample_lib sample_stable))
    (save_trace sample_lib [[]; [["A"; "B"; "C"]]] sample_stable DEFAULT_CSV_PATH sample_files).
Proof.
  apply (proj1 (save_csv_atomic_trace sample_lib [[]; [["A"; "B"; "C"]]] sample_stable
                  DEFAULT_CSV_PATH sample_files)).
Defined.

(** ** Save then load *)

Lemma nat_literal_to_uint (p : positive) :
  nat_literal (NilZero.string_of_uint (Pos.to_uint p)) = Some (Zpos p).
Proof.
  unfold nat_literal.
  rewrite NilZero.usu by apply DecimalPos.Unsigned.to_uint_nonnil.
  simpl. unfold Z.of_uint. rewrite DecimalPos.Unsigned.of_to. reflexivity.
Qed.

Lemma string_of_uint_head (d : Decimal.uint) :
  exists c s, NilZero.string_of_uint d = String c s /\ Ascii.eqb c "-" = false.
Proof. destruct d; simpl; eauto. Qed.

(** An integer in the 64-bit range is read back from its decimal form. *)
Lemma csv_int64_Z_str (z : Z) :
  ((INT64_MIN <=? z) && (z <=? INT64_MAX))%Z = true -> csv_int64 (Z_str z) = Some z.
Proof.
  intros Hrange. unfold Z_str. destruct z as [|p|p]; simpl Z.to_int.
  - reflexivity.
  - simpl NilZero.string_of_int.
    pose proof (nat_literal_to_uint p) as Hp.
    destruct (string_of_uint_head (Pos.to_uint p)) as (c & s & Hs & Hc).
    rewrite Hs in *. unfold csv_int64. rewrite Hc, Hp.
    cbn -[Z.leb INT64_MIN INT64_MAX]. rewrite Hrange. reflexivity.
  - simpl NilZero.string_of_int. unfold csv_int64.
    rewrite Ascii.eqb_refl, nat_literal_to_uint.
    cbn -[Z.leb INT64_MIN INT64_MAX Z.opp].
    change (- Z.pos p)%Z with (Z.neg p). rewrite Hrange. reflexivity.
Qed.

Lemma map_nth_seq {A} (l : list A) (x : A) :
  (fun i => nth i l x) <$> seq 0 (length l) = l.
Proof.
  apply list_eq. intros i. rewrite list_lookup_fmap.
  destruct (l !! i) as [y|] eqn:Hy.
  - rewrite lookup_seq_lt by (eapply lookup_lt_Some; exact Hy).
    simpl. f_equal. apply nth_lookup_Some with (d := x) in Hy. exact Hy.
  - rewrite lookup_seq_ge by (apply lookup_ge_None; exact Hy). reflexivity.
Qed.

Section RoundTrip.
Context (lib : Library).

(** The fields of column [j] in the written file are the column's cells
    as [to_csv] writes them. *)
Lemma to_csv_column (d : DataFrame) (j : nat) (name : string) (s : Series) :
  d !! j = Some (name, s) ->
  length (s_values s) = nrows d ->
  (fun r => nth j r "") <$> tail (to_csv lib d)
  = render lib (s_dtype s) <$> s_values s.
Proof.
  intros Hj Hlen. unfold to_csv. simpl tail. rewrite <- Hlen.
  rewrite <- (map_nth_seq (s_values s) VNone) at 2.
  rewrite <- !list_fmap_compose.
  apply list_fmap_ext. intros i k _. simpl.
  apply nth_lookup_Some. rewrite list_lookup_fmap, Hj. reflexivity.
Qed.

Lemma is_na_empty : is_na lib "" = true.
Proof.
  unfold is_na. apply bool_decide_eq_true_2, elem_of_app. left.
  unfold NA_VALUES. apply list_elem_of_here.
Qed.

Lemma forallb_live (P : string -> bool) (toks : list string) :
  forallb P (filter (fun t => negb (is_na lib t)) toks) = true
  <-> forall t, t ∈ toks -> is_na lib t = false -> P t = true.
Proof.
  rewrite forallb_forall. split.
  - intros H t Ht Hna. apply H. apply list_elem_of_In, list_elem_of_filter. split; [|exact Ht].
    rewrite Hna. exact I.
  - intros H t Ht. apply list_elem_of_In, list_elem_of_filter in Ht as [Hna Ht].
    apply H; [exact Ht|]. destruct (is_na lib t); [contradiction | reflexivity].
Qed.

Lemma existsb_live (P : string -> bool) (toks : list string) :
  (exists t, t ∈ toks /\ is_na lib t = false /\ P t = true) ->
  existsb P (filter (fun t => negb (is_na lib t)) toks) = true.
Proof.
  intros (t & Ht & Hna & HP). apply existsb_exists. exists t. split; [|exact HP].
  apply list_elem_of_In, list_elem_of_filter. split; [|exact Ht]. rewrite Hna. exact I.
Qed.

Lemma forallb_live_false (P : string -> bool) (toks : list string) :
  (exists t, t ∈ toks /\ is_na lib t = false /\ P t = false) ->
  forallb P (filter (fun t => negb (is_na lib t)) toks) = false.
Proof.
  intros (t & Ht & Hna & HP).
  destruct (forallb P _) eqn:Hall; [|reflexivity].
  rewrite (proj1 (forallb_live P toks) Hall t Ht Hna) in HP. discriminate.
Qed.

Lemma existsb_is_na (toks : list string) :
  existsb (is_na lib) toks = true <-> exists t, t ∈ toks /\ is_na lib t = true.
Proof.
  rewrite existsb_exists. split; intros (t & Ht & H); exists t; split; try exact H;
    apply list_elem_of_In; exact Ht.
Qed.

(** Reading back, cell by cell. *)
Lemma cells_back (f : string -> value) (d : dtype) (vs : list value) :
  (forall v, v ∈ vs -> cell_of lib f (render lib d v) = v) ->
  cell_of lib f <$> (render lib d <$> vs) = vs.
Proof.
  intros H. rewrite <- list_fmap_compose. rewrite <- (list_fmap_id vs) at 2.
  apply Forall_fmap_ext_1, Forall_forall. intros v Hv. simpl. apply H, Hv.
Qed.

Lemma null_back (f : string -> value) (d : dtype) (v : value) :
  is_null v = true -> is_na lib (render lib d v) = true /\ cell_of lib f (render lib d v) = v.
Proof.
  destruct v; try discriminate. intros _. unfold cell_of.
  change (render lib d VNone) with "". rewrite is_na_empty. split; reflexivity.
Qed.

Lemma int_back (d : dtype) (v : value) :
  int_cell lib d v = true -> is_float_dtype d = false ->
  is_na lib (render lib d v) = false
  /\ exists z, v = VInt z /\ csv_int64 (render lib d v) = Some z.
Proof.
  destruct v as [| |z| |]; try discriminate. unfold int_cell, survives.
  intros H Hd. apply andb_true_iff in H as [Hrange Hs].
  apply negb_true_iff in Hs. split; [exact Hs|].
  exists z. split; [reflexivity|].
  replace (render lib d (VInt z)) with (Z_str z)
    by (destruct d; try reflexivity; discriminate).
  apply csv_int64_Z_str, Hrange.
Qed.

Lemma bool_back (d : dtype) (v : value) :
  bool_cell lib d v = true ->
  is_na lib (render lib d v) = false
  /\ csv_int64 (render lib d v) = None
  /\ is_bool_word (render lib d v) = true
  /\ VBool (is_true_word (render lib d v)) = v.
Proof.
  destruct v as [|b| | |]; try discriminate. unfold bool_cell, survives.
  intros Hs. apply negb_true_iff in Hs. split; [exact Hs|].
  destruct b; repeat split.
Qed.

Lemma text_back (d : dtype) (v : value) :
  text_cell lib d v = true ->
  is_na lib (render lib d v) = false /\ VStr (render lib d v) = v.
Proof.
  destruct v as [| | | |t]; try discriminate. unfold text_cell, survives.
  intros Hs. apply negb_true_iff in Hs. split; [exact Hs | reflexivity].
Qed.

(** A stable column is read back with the values it was written from. *)
Lemma column_of_tokens_stable (s : Series) :
  stable_column lib s = true ->
  s_values (column_of_tokens lib (render lib (s_dtype s) <$> s_values s)) = s_values s.
Proof.
  destruct s as [d vs]. unfold stable_column. simpl s_dtype. simpl s_values.
  intros Hst. destruct vs as [|v0 vs']; [reflexivity|].
  change (column_of_tokens lib (render lib d <$> v0 :: vs'))
    with (typed_column lib (render lib d <$> v0 :: vs')).
  set (vs := v0 :: vs') in *. set (toks := render lib d <$> vs).
  assert (Hv0 : v0 ∈ vs) by apply list_elem_of_here.
  assert (Htok : forall v, v ∈ vs -> render lib d v ∈ toks).
  { intros v Hv. apply list_elem_of_fmap. eauto. }
  assert (Hfrom : forall t, t ∈ toks -> exists v, v ∈ vs /\ t = render lib d v).
  { intros t Ht. apply list_elem_of_fmap in Ht as (v & -> & Hv). eauto. }
  unfold typed_column.
  repeat rewrite orb_true_iff in Hst. destruct Hst as [[[Hnull|Hint]|Hbool]|Htext].
  - (* nulls only *)
    rewrite forallb_forall in Hnull.
    assert (Hn : forall v, v ∈ vs -> is_null v = true).
    { intros v Hv. apply Hnull, list_elem_of_In, Hv. }
    rewrite (proj2 (forallb_live _ toks)).
    2:{ intros t Ht Hna. destruct (Hfrom t Ht) as (v & Hv & ->).
        destruct (null_back VStr d v (Hn v Hv)) as [Hna' _]. congruence. }
    rewrite (proj2 (existsb_is_na toks)).
    2:{ exists (render lib d v0). split; [apply Htok, Hv0|].
        apply (null_back VStr d v0 (Hn v0 Hv0)). }
    cbn [s_values]. apply cells_back. intros v Hv. apply null_back, Hn, Hv.
  - (* integers *)
    apply andb_true_iff in Hint as [Hint Hd]. apply negb_true_iff in Hd.
    rewrite forallb_forall in Hint.
    assert (Hi : forall v, v ∈ vs -> int_cell lib d v = true).
    { intros v Hv. apply Hint, list_elem_of_In, Hv. }
    rewrite (proj2 (forallb_live _ toks)).
    2:{ intros t Ht _. destruct (Hfrom t Ht) as (v & Hv & ->).
        destruct (int_back d v (Hi v Hv) Hd) as (_ & z & _ & ->).
        apply bool_decide_eq_true_2. eauto. }
    destruct (existsb (is_na lib) toks) eqn:Hna.
    { apply existsb_is_na in Hna as (t & Ht & Hna). destruct (Hfrom t Ht) as (v & Hv & ->).
      destruct (int_back d v (Hi v Hv) Hd) as (Hna' & _). congruence. }
    cbn [s_values]. apply cells_back. intros v Hv.
    destruct (int_back d v (Hi v Hv) Hd) as (Hna' & z & -> & Hz).
    unfold cell_of. rewrite Hna', Hz. reflexivity.
  - (* booleans and nulls *)
    rewrite forallb_forall in Hbool.
    assert (Hb : forall v, v ∈ vs -> is_null v = true \/ bool_cell lib d v = true).
    { intros v Hv. apply orb_true_iff, Hbool, list_elem_of_In, Hv. }
    destruct (forallb (fun t => bool_decide (is_Some (csv_int64 t))) _) eqn:Hall.
    + (* no boolean among them *)
      assert (Hn : forall v, v ∈ vs -> is_null v = true).
      { intros v Hv. destruct (Hb v Hv) as [H|H]; [exact H|].
        destruct (bool_back d v H) as (Hna & Hnone & _).
        pose proof (proj1 (forallb_live _ toks) Hall _ (Htok v Hv) Hna) as Hsome.
        apply bool_decide_eq_true_1 in Hsome. rewrite Hnone in Hsome.
        destruct Hsome as [? [=]]. }
      rewrite (proj2 (existsb_is_na toks)).
      2:{ exists (render lib d v0). split; [apply Htok, Hv0|].
          apply (null_back VStr d v0 (Hn v0 Hv0)). }
      cbn [s_values]. apply cells_back. intros v Hv. apply null_back, Hn, Hv.
    + rewrite (proj2 (forallb_live _ toks)).
      2:{ intros t Ht Hna. destruct (Hfrom t Ht) as (v & Hv & ->).
          destruct (Hb v Hv) as [H|H].
          - destruct (null_back VStr d v H) as [Hna' _]. congruence.
          - apply (bool_back d v H). }
      cbn [s_values]. apply cells_back. intros v Hv. destruct (Hb v Hv) as [H|H].
      * apply null_back, H.
      * destruct (bool_back d v H) as (Hna & _ & _ & Hval).
        unfold cell_of. rewrite Hna. exact Hval.
  - (* text and nulls *)
    apply andb_true_iff in Htext as [Htext Hfloat].
    apply andb_true_iff in Htext as [Htext Hword].
    apply andb_true_iff in Htext as [Htext Hnum].
    rewrite forallb_forall in Htext.
    assert (Ht : forall v, v ∈ vs -> is_null v = true \/ text_cell lib d v = true).
    { intros v Hv. apply orb_true_iff, Htext, list_elem_of_In, Hv. }
    assert (Hwit : forall P : string -> bool,
      existsb (text_where P) vs = true ->
      exists t, t ∈ toks /\ is_na lib t = false /\ P t = true).
    { intros P HP. apply existsb_exists in HP as (v & Hv & HPv).
      apply list_elem_of_In in Hv. destruct v as [| | | |t]; try discriminate.
      destruct (Ht _ Hv) as [H|H]; [discriminate|].
      destruct (text_back d _ H) as [Hna _].
      exists t. split; [apply (Htok _ Hv) | split; [exact Hna | exact HPv]]. }
    rewrite forallb_live_false.
    2:{ destruct (Hwit _ Hnum) as (t & Ht' & Hna & HP). exists t. repeat split; try assumption.
        apply bool_decide_eq_true_1 in HP. apply bool_decide_eq_false_2.
        rewrite HP. intros [? [=]]. }
    rewrite forallb_live_false.
    2:{ destruct (Hwit _ Hword) as (t & Ht' & Hna & HP). exists t. repeat split; try assumption.
        apply negb_true_iff, HP. }
    rewrite existsb_live by (apply Hwit, Hfloat).
    cbn [s_values]. apply cells_back. intros v Hv. destruct (Ht v Hv) as [H|H].
    + apply null_back, H.
    + destruct (text_back d v H) as (Hna & Hval). unfold cell_of. rewrite Hna. exact Hval.
Qed.

Lemma filter_all {A} (P : A -> Prop) `{forall x, Decision (P x)} (l : list A) :
  Forall P l -> filter P l = l.
Proof.
  induction 1 as [|x l Hx _ IH]; [reflexivity|].
  rewrite filter_cons_True by exact Hx. rewrite IH. reflexivity.
Qed.

(** A file whose first field has no byte-order mark is read as it is. *)
Lemma skip_bom_none (header : list string) (rows : list (list string)) :
  bom_led header = false ->
  bom_quoted (header :: rows) = false /\ skip_bom (header :: rows) = header :: rows.
Proof.
  destruct header as [|t r]; [split; reflexivity|]. simpl.
  unfold has_bom. destruct (drop_bom t); [discriminate|]. split; reflexivity.
Qed.

(** What [read_csv] makes of the file [to_csv] wrote for a stable table
    with at least one column. *)
Lemma read_csv_to_csv (t : DataFrame) :
  stable_table lib t = true -> t <> [] ->
  exists d, read_csv lib (to_csv lib t) = Some d /\ table_values d = table_values t.
Proof.
  intros Hst Hne. unfold stable_table in Hst.
  apply andb_true_iff in Hst as [Hst Hlines]. apply andb_true_iff in Hst as [Hst Hbreak].
  apply andb_true_iff in Hst as [Hst Hchunk].
  apply andb_true_iff in Hst as [Hst Hcols]. apply andb_true_iff in Hst as [Hst Hbom].
  apply andb_true_iff in Hst as [Hnd Hblank]. apply negb_true_iff in Hbom.
  rewrite forallb_forall in Hcols.
  apply orb_true_iff in Hlines as [Hnil|Hlines];
    [apply bool_decide_eq_true_1 in Hnil; contradiction|].
  unfold read_csv.
  destruct (skip_bom_none (columns t) (tail (to_csv lib t)) Hbom) as [Hq Hskip].
  change (columns t :: tail (to_csv lib t)) with (to_csv lib t) in Hq, Hskip.
  rewrite Hq, Hskip.
  rewrite filter_all.
  2:{ apply Forall_forall. intros r Hr. rewrite forallb_forall in Hlines.
      apply Is_true_true, Hlines, list_elem_of_In, Hr. }
  change (to_csv lib t) with (columns t :: tail (to_csv lib t)). cbv iota.
  assert (Hreg : regular lib (columns t) (tail (to_csv lib t)) = true).
  { unfold regular. rewrite Hnd, Hblank. simpl andb.
    apply andb_true_iff. split; [apply andb_true_iff; split|].
    - apply forallb_forall. intros r Hr. unfold to_csv in Hr. simpl tail in Hr.
      apply list_elem_of_In, list_elem_of_fmap in Hr as (i & -> & _).
      unfold columns. rewrite !length_fmap. apply Nat.leb_refl.
    - unfold to_csv. simpl tail. unfold columns.
      rewrite !length_fmap, length_seq. exact Hchunk.
    - exact Hbreak. }
  rewrite Hreg. eexists. split; [reflexivity|].
  unfold table_values. apply list_eq. intros i.
  rewrite !list_lookup_fmap, list_lookup_imap. unfold columns. rewrite list_lookup_fmap.
  destruct (t !! i) as [[name s]|] eqn:Hi; [|reflexivity].
  cbn [fmap option_fmap option_map fst snd s_values]. do 2 f_equal.
  assert (Hin : In (name, s) t) by (apply list_elem_of_In, list_elem_of_lookup; eauto).
  apply Hcols in Hin. simpl in Hin. apply andb_true_iff in Hin as [Hlen Hstable].
  apply Nat.eqb_eq in Hlen.
  rewrite (to_csv_column t i name s Hi Hlen).
  apply column_of_tokens_stable, Hstable.
Qed.

(** C6 (amended). For a table with distinct, non-empty labels, the
    first of which does not start with a byte-order mark, whose columns
    have one length and are each stable (no values; nulls only; 64-bit
    integers; booleans and nulls; text and nulls where no text is a
    null spelling and the texts are not all integers, not all boolean
    words and not all floats), which is read in one pass and written
    without a line break inside a field and without a line of blanks
    and tabs only, saving it to a path and loading from that path gives
    the same labels and the same values, a null being the same value
    whether it is held as [None] or as NaN. *)
Theorem save_load_stable (t : DataFrame) (path : string) (fs : filesystem) :
  stable_table lib t = true ->
  table_values (load_csv lib path (save_csv_atomic lib t path fs)).1 = table_values t.
Proof.
  intros Hst. unfold load_csv. rewrite save_csv_atomic_lookup.
  destruct t as [|p t'] eqn:Ht; [reflexivity|]. rewrite <- Ht in *.
  destruct (read_csv_to_csv t Hst) as (d & -> & Hd); [subst t; discriminate|].
  exact Hd.
Qed.

End RoundTrip.

Lemma save_load_stable_witness :
  stable_table sample_lib sample_stable = true
  /\ table_values
       (load_csv sample_lib DEFAULT_CSV_PATH
          (save_csv_atomic sample_lib sample_stable DEFAULT_CSV_PATH sample_files)).1
     = table_values sample_stable.
Proof.
  assert (H : stable_table sample_lib sample_stable = true) by (vm_compute; reflexivity).
  split; [exact H|].
  apply (save_load_stable sample_lib sample_stable DEFAULT_CSV_PATH sample_files H).
Defined.

(** A text cell spelled [NA] is written as [NA] and loaded as a null,
    whatever the library. *)
Lemma save_load_na_text (lib : Library) (path : string) (fs : filesystem) :
  (1 <=? chunk_rows lib 1)%nat = true ->
  table_values (load_csv lib path (save_csv_atomic lib sample_na_text path fs)).1
  = [("A", [VNone])].
Proof.
  intros Hchunk. unfold load_csv. rewrite save_csv_atomic_lookup.
  unfold read_csv.
  change (bom_quoted (to_csv lib sample_na_text)) with false.
  change (filter _ (skip_bom (to_csv lib sample_na_text))) with ([["A"]; ["NA"]] : file).
  cbv iota. unfold regular.
  change (length [["NA"]]) with 1%nat. change (length ["A"]) with 1%nat.
  rewrite Hchunk. vm_compute. reflexivity.
Qed.

(** Save then load does not give that table back. *)
Lemma save_load_loses_na_text :
  table_values
    (load_csv sample_lib DEFAULT_CSV_PATH
       (save_csv_atomic sample_lib sample_na_text DEFAULT_CSV_PATH ∅)).1
  <> table_values sample_na_text.
Proof. rewrite save_load_na_text by reflexivity. discriminate. Qed.

(** * Further properties *)

(** ** Entries as text *)

Lemma rstrip_idem (s : string) : rstrip (rstrip s) = rstrip s.
Proof.
  induction s as [|c s IH]; [reflexivity|].
  simpl. destruct (rstrip s) as [|c' r] eqn:Hr.
  - destruct (py_isspace c) eqn:Hc; [reflexivity|]. simpl. rewrite Hc. reflexivity.
  - change (rstrip (String c (String c' r)))
      with (match rstrip (String c' r) with
            | EmptyString => if py_isspace c then EmptyString else String c EmptyString
            | r' => String c r'
            end).
    rewrite IH. reflexivity.
Qed.

Lemma rstrip_head (c : ascii) (s : string) :
  py_isspace c = false -> exists r, rstrip (String c s) = String c r.
Proof.
  intros Hc. simpl. destruct (rstrip s); [rewrite Hc|]; eauto.
Qed.

Lemma lstrip_head (s : string) :
  lstrip s = EmptyString \/ exists c r, lstrip s = String c r /\ py_isspace c = false.
Proof.
  induction s as [|c s IH]; [left; reflexivity|].
  simpl. destruct (py_isspace c) eqn:Hc; [exact IH | right; eauto].
Qed.

Lemma strip_idem (s : string) : strip (strip s) = strip s.
Proof.
  unfold strip. destruct (lstrip_head s) as [->|(c & r & -> & Hc)]; [reflexivity|].
  destruct (rstrip_head c r Hc) as [r' Hr']. rewrite Hr'.
  simpl lstrip. rewrite Hc. rewrite <- Hr'. apply rstrip_idem.
Qed.

Lemma lstrip_all_space (s : string) : all_space s = true -> lstrip s = EmptyString.
Proof.
  unfold all_space. induction s as [|c s IH]; [reflexivity|].
  simpl. intros H. apply andb_true_iff in H as [-> H]. apply IH, H.
Qed.

Lemma strip_all_space (s : string) : all_space s = true -> strip s = EmptyString.
Proof. intros H. unfold strip. rewrite lstrip_all_space by exact H. reflexivity. Qed.

Section EntryFacts.
Context (lib : Library).

(** X1. Under the integer and the float kind the white space around an
    entry does not count: an entry is parsed as its trimmed text is,
    and an entry of white space only gives a null. *)
Theorem parse_value_trims (s : string) :
  parse_value lib (RStr s) "int" = parse_value lib (RStr (strip s)) "int"
  /\ parse_value lib (RStr s) "float" = parse_value lib (RStr (strip s)) "float"
  /\ (all_space s = true ->
      parse_value lib (RStr s) "int" = VNone /\ parse_value lib (RStr s) "float" = VNone).
Proof.
  unfold parse_value, blank. simpl String.eqb. cbv iota. simpl py_str.
  rewrite strip_idem. split; [reflexivity|]. split; [reflexivity|].
  intros Hs. rewrite (strip_all_space s Hs). split; reflexivity.
Qed.

End EntryFacts.

Lemma parse_value_trims_witness :
  parse_value sample_lib (RStr " 	 ") "int" = VNone
  /\ parse_value sample_lib (RStr " 7 ") "int" = parse_value sample_lib (RStr "7") "int".
Proof.
  split.
  - apply (proj2 (proj2 (parse_value_trims sample_lib " 	 "))). reflexivity.
  - apply (proj1 (parse_value_trims sample_lib " 7 ")).
Defined.

(** ** Integers as text *)

Lemma digit_not_space (c : ascii) : is_digit c = true -> py_isspace c = false.
Proof.
  destruct c as [[|] [|] [|] [|] [|] [|] [|] [|]]; intros H; try discriminate H; reflexivity.
Qed.

Lemma digit_not_sign (c : ascii) :
  is_digit c = true -> Ascii.eqb c "-" = false /\ Ascii.eqb c "+" = false.
Proof.
  destruct c as [[|] [|] [|] [|] [|] [|] [|] [|]]; intros H; try discriminate H;
    split; reflexivity.
Qed.

Lemma string_of_uint_digits (d : Decimal.uint) :
  forallb is_digit (list_ascii_of_string (NilZero.string_of_uint d)) = true.
Proof.
  assert (H : forall d, forallb is_digit (list_ascii_of_string (NilEmpty.string_of_uint d)) = true).
  { induction d0; simpl; auto. }
  destruct d; try apply H. reflexivity.
Qed.

Lemma rstrip_no_space (s : string) :
  forallb (fun c => negb (py_isspace c)) (list_ascii_of_string s) = true -> rstrip s = s.
Proof.
  induction s as [|c s IH]; [reflexivity|].
  simpl. intros H. apply andb_true_iff in H as [Hc H]. apply negb_true_iff in Hc.
  rewrite (IH H). destruct s; [rewrite Hc|]; reflexivity.
Qed.

Lemma strip_no_space (s : string) :
  forallb (fun c => negb (py_isspace c)) (list_ascii_of_string s) = true -> strip s = s.
Proof.
  intros H. unfold strip.
  replace (lstrip s) with s; [apply rstrip_no_space, H|].
  destruct s as [|c s]; [reflexivity|]. simpl in *.
  apply andb_true_iff in H as [Hc _]. apply negb_true_iff in Hc. rewrite Hc. reflexivity.
Qed.

Lemma digits_no_space (s : string) :
  forallb is_digit (list_ascii_of_string s) = true ->
  forallb (fun c => negb (py_isspace c)) (list_ascii_of_string s) = true.
Proof.
  induction s as [|c s IH]; [reflexivity|]. simpl. intros H.
  apply andb_true_iff in H as [Hc H]. rewrite (digit_not_space c Hc). simpl. apply IH, H.
Qed.

Lemma drop_underscores_digits (b : bool) (s : string) :
  forallb is_digit (list_ascii_of_string s) = true ->
  b = true \/ s <> EmptyString ->
  drop_underscores b s = Some s.
Proof.
  revert b. induction s as [|c s IH]; intros b H Hb.
  - destruct Hb as [->|Hne]; [reflexivity | contradiction].
  - simpl in *. apply andb_true_iff in H as [Hc H]. rewrite Hc.
    rewrite (IH true H) by (left; reflexivity). reflexivity.
Qed.

(** [int] reads back what [str] wrote, within the limit on digits. *)
Lemma py_int_Z_str (m : nat) (z : Z) :
  m = 0%nat \/ (String.length (Z_str (Z.abs z)) <= m)%nat ->
  strip (Z_str z) = Z_str z /\ Z_str z <> EmptyString /\ py_int m (Z_str z) = Some z.
Proof.
  intros Hm.
  assert (Hlim : forall ds, ds = Z_str (Z.abs z) ->
            negb (Nat.eqb m 0) && (m <? String.length ds)%nat = false).
  { intros ds ->. destruct Hm as [->|Hm]; [reflexivity|].
    apply andb_false_iff. right. apply Nat.ltb_ge. exact Hm. }
  destruct z as [|p|p].
  - split; [reflexivity|]. split; [discriminate|].
    clear. destruct m; reflexivity.
  - set (ds := NilZero.string_of_uint (Pos.to_uint p)).
    assert (Hs : Z_str (Z.pos p) = ds) by reflexivity.
    pose proof (string_of_uint_digits (Pos.to_uint p)) as Hd. fold ds in Hd.
    assert (Hstrip : strip ds = ds) by (apply strip_no_space, digits_no_space, Hd).
    assert (Hne : ds <> EmptyString).
    { destruct (string_of_uint_head (Pos.to_uint p)) as (c & s & Hcs & _).
      fold ds in Hcs. rewrite Hcs. discriminate. }
    rewrite Hs. split; [exact Hstrip|]. split; [exact Hne|].
    unfold py_int. rewrite Hstrip.
    assert (Hsign : split_sign ds = (false, ds)).
    { destruct ds as [|c s]; [reflexivity|]. simpl in Hd.
      apply andb_true_iff in Hd as [Hc _].
      destruct (digit_not_sign c Hc) as [H1 H2]. simpl. rewrite H1, H2. reflexivity. }
    rewrite Hsign. rewrite drop_underscores_digits by (auto).
    rewrite (Hlim ds eq_refl). unfold ds. rewrite nat_literal_to_uint. reflexivity.
  - set (ds := NilZero.string_of_uint (Pos.to_uint p)).
    assert (Hs : Z_str (Z.neg p) = String "-" ds) by reflexivity.
    pose proof (string_of_uint_digits (Pos.to_uint p)) as Hd. fold ds in Hd.
    assert (Hstrip : strip (String "-" ds) = String "-" ds).
    { apply strip_no_space. simpl. apply digits_no_space, Hd. }
    assert (Hne : ds <> EmptyString).
    { destruct (string_of_uint_head (Pos.to_uint p)) as (c & s & Hcs & _).
      fold ds in Hcs. rewrite Hcs. discriminate. }
    rewrite Hs. split; [exact Hstrip|]. split; [discriminate|].
    unfold py_int. rewrite Hstrip. simpl split_sign. cbv iota beta.
    rewrite drop_underscores_digits by (auto).
    rewrite (Hlim ds eq_refl). unfold ds. rewrite nat_literal_to_uint. reflexivity.
Qed.

Section IntegerFacts.
Context (lib : Library).

(** X2. Under the integer kind, the decimal text of an integer, as
    [str] writes it, is parsed back to that integer, provided it has no
    more digits than [int] accepts. *)
Theorem parse_value_int_of_str (z : Z) :
  int_max_str_digits lib = 0%nat
  \/ (String.length (Z_str (Z.abs z)) <= int_max_str_digits lib)%nat ->
  parse_value lib (RStr (Z_str z)) "int" = VInt z.
Proof.
  intros Hm. destruct (py_int_Z_str _ z Hm) as (Hstrip & Hne & Hint).
  unfold parse_value, blank. simpl String.eqb. cbv iota. simpl py_str.
  rewrite Hstrip, Hint.
  destruct (String.eqb_spec (Z_str z) ""); [contradiction | reflexivity].
Qed.

End IntegerFacts.

Lemma parse_value_int_of_str_witness :
  parse_value sample_lib (RStr "-42") "int" = VInt (-42).
Proof.
  apply (parse_value_int_of_str sample_lib (-42)). right. vm_compute. lia.
Defined.

(** ** Moving through the fields *)

Section NavigationFacts.
Context (lib : Library).

Lemma py_index_valid {A} (l : list A) (i : Z) :
  (0 <= i < Z.of_nat (length l))%Z -> exists x, py_index l i = Some x /\ l !! Z.to_nat i = Some x.
Proof.
  intros Hi. unfold py_index.
  destruct (Z.leb_spec 0 i) as [_|Hlt]; [|lia].
  destruct (lookup_lt_is_Some_2 l (Z.to_nat i)) as [x Hx]; [lia|]. eauto.
Qed.

(** The field on screen has a kind, and seeding gives a draft that
    differs from the stored one at most there. *)
Lemma current_field (st : state) (cur : string) :
  py_index (columns (df st)) (wizard_idx st) = Some cur ->
  exists s_cur seeded,
    df_col (df st) cur = Some s_cur
    /\ kinds_of lib (df st) !! cur = Some (infer_input_type lib s_cur)
    /\ seed (kinds_of lib (df st)) cur (temp_row st) = Some seeded
    /\ (forall c, c <> cur -> seeded !! c = temp_row st !! c).
Proof.
  intros Hcur.
  destruct (df_col_elem (df st) cur (py_index_elem _ _ _ Hcur)) as (s_cur & Hs & _).
  assert (Hk : kinds_of lib (df st) !! cur = Some (infer_input_type lib s_cur)).
  { rewrite kinds_of_lookup, Hs. reflexivity. }
  destruct (seed_total (kinds_of lib (df st)) cur (temp_row st)) as [seeded Hseed]; [eauto|].
  exists s_cur, seeded. repeat split; try assumption.
  apply (seed_other _ _ _ _ Hseed).
Qed.

(** A run that neither saves nor resets: the widget's value is stored
    under the field on screen and the wizard moves. *)
Lemma run_wizard_nav (inp : inputs) (st : state) (cur : string) (s_cur : Series)
    (seeded : gmap string raw) :
  py_index (columns (df st)) (wizard_idx st) = Some cur ->
  (-1 <= wizard_idx st)%Z ->
  df_col (df st) cur = Some s_cur ->
  seed (kinds_of lib (df st)) cur (temp_row st) = Some seeded ->
  clicked inp <> ResetWizard ->
  (clicked inp = SaveDone ->
   wizard_idx st <> (Z.of_nat (length (columns (df st))) - 1)%Z) ->
  run_wizard lib inp st
  = Returned (mkState (csv_path st) (df st)
                (moved (clicked inp) (Z.of_nat (length (columns (df st)))) (wizard_idx st))
                (<[cur := widget_value (infer_input_type lib s_cur) inp]> seeded)
                (files st)).
Proof.
  intros Hcur Hlow Hs Hseed Hreset Hsave. unfold run_wizard.
  assert (Hprog : (wizard_idx st + 1 <? 0)%Z = false) by (apply Z.ltb_ge; lia).
  rewrite Hcur, Hprog, Hseed, kinds_of_lookup, Hs. simpl fmap. cbv zeta.
  unfold widget_value, moved, utility_row.
  destruct (clicked inp) eqn:Hc; simpl; try reflexivity.
  - destruct (0 <? wizard_idx st)%Z; reflexivity.
  - destruct (wizard_idx st <? _)%Z; reflexivity.
  - destruct (Z.eqb_spec (wizard_idx st) (Z.of_nat (length (columns (df st))) - 1));
      [exfalso; apply Hsave; auto | reflexivity].
  - contradiction.
Qed.

(** X3. A run of the wizard that neither resets nor saves (any button
    but Reset, Save included when the wizard is not at its last field),
    at an index that is in the list of columns ([cols[idx]] exists) and
    not below -1 (the progress bar accepts it), returns, leaves table
    and files as they were, stores the widget's value as the draft of
    the field on screen and keeps every other draft value. *)
Theorem navigation_keeps_draft (inp : inputs) (st : state) (cur : string) :
  df st <> [] ->
  py_index (columns (df st)) (wizard_idx st) = Some cur ->
  (-1 <= wizard_idx st)%Z ->
  clicked inp <> ResetWizard ->
  (clicked inp = SaveDone ->
   wizard_idx st <> (Z.of_nat (length (columns (df st))) - 1)%Z) ->
  exists st' kind,
    run lib inp st = Returned st'
    /\ kinds_of lib (df st) !! cur = Some kind
    /\ df st' = df st /\ files st' = files st
    /\ temp_row st' !! cur = Some (widget_value kind inp)
    /\ (forall c, c <> cur -> temp_row st' !! c = temp_row st !! c).
Proof.
  intros Hne Hcur Hlow Hreset Hsave.
  destruct (current_field st cur Hcur) as (s_cur & seeded & Hs & Hk & Hseed & Hother).
  rewrite run_is_run_wizard by exact Hne.
  rewrite (run_wizard_nav inp st cur s_cur seeded Hcur Hlow Hs Hseed Hreset Hsave).
  eexists _, _. split; [reflexivity|]. split; [exact Hk|]. simpl.
  split; [reflexivity|]. split; [reflexivity|]. split.
  - apply lookup_insert_eq.
  - intros c Hc. rewrite lookup_insert_ne by congruence. apply Hother, Hc.
Qed.

Lemma reset_discards_draft_aux (inp : inputs) (st : state) (cur : string) :
  df st <> [] ->
  py_index (columns (df st)) (wizard_idx st) = Some cur ->
  (-1 <= wizard_idx st)%Z ->
  clicked inp = ResetWizard ->
  run lib inp st = Returned (mkState (csv_path st) (df st) 0 ∅ (files st)).
Proof.
  intros Hne Hcur Hlow Hc.
  destruct (current_field st cur Hcur) as (s_cur & seeded & Hs & Hk & Hseed & _).
  rewrite run_is_run_wizard by exact Hne. unfold run_wizard.
  assert (Hprog : (wizard_idx st + 1 <? 0)%Z = false) by (apply Z.ltb_ge; lia).
  rewrite Hcur, Hprog, Hseed, Hk. cbv zeta. unfold utility_row. rewrite Hc. reflexivity.
Qed.

(** X4. Reset, pressed at any field of a session the script can reach,
    returns with the wizard at index 0 and an empty draft: the value on
    screen is dropped with the others.  The table and the files stay as
    they were. *)
Theorem reset_discards_draft (fs : filesystem) (inp : inputs) (st : state) :
  reachable lib fs st ->
  df st <> [] ->
  clicked inp = ResetWizard ->
  run lib inp st = Returned (mkState (csv_path st) (df st) 0 ∅ (files st)).
Proof.
  intros Hreach Hne Hc.
  destruct (reachable_position lib fs st Hreach) as [[Hnil _]|Hidx]; [contradiction|].
  destruct (py_index_valid (columns (df st)) (wizard_idx st) Hidx) as (cur & Hcur & _).
  exact (reset_discards_draft_aux inp st cur Hne Hcur ltac:(lia) Hc).
Qed.

(** X5. Next and then Back, in a table with distinct labels and from a
    field that is not the last, bring the wizard back to the field it
    left; the draft then holds what was entered in both fields, and
    table and files are as before. *)
Theorem next_then_back (inp1 inp2 : inputs) (st : state) :
  NoDup (columns (df st)) ->
  (0 <= wizard_idx st < Z.of_nat (length (columns (df st))) - 1)%Z ->
  clicked inp1 = GoNext ->
  clicked inp2 = GoBack ->
  exists st2 c1 c2 k1 k2,
    run lib inp2 (after (run lib inp1 st)) = Returned st2
    /\ columns (df st) !! Z.to_nat (wizard_idx st) = Some c1
    /\ columns (df st) !! S (Z.to_nat (wizard_idx st)) = Some c2
    /\ kinds_of lib (df st) !! c1 = Some k1
    /\ kinds_of lib (df st) !! c2 = Some k2
    /\ wizard_idx st2 = wizard_idx st
    /\ df st2 = df st /\ files st2 = files st
    /\ temp_row st2 !! c1 = Some (widget_value k1 inp1)
    /\ temp_row st2 !! c2 = Some (widget_value k2 inp2).
Proof.
  intros Hnd Hidx Hc1 Hc2.
  set (n := Z.of_nat (length (columns (df st)))) in *.
  assert (Hne : df st <> []).
  { intros Hnil. subst n. rewrite Hnil in Hidx. simpl in Hidx. lia. }
  destruct (py_index_valid (columns (df st)) (wizard_idx st)) as (c1 & Hcur1 & Hl1); [lia|].
  destruct (py_index_valid (columns (df st)) (wizard_idx st + 1)) as (c2 & Hcur2 & Hl2); [lia|].
  replace (Z.to_nat (wizard_idx st + 1)) with (S (Z.to_nat (wizard_idx st))) in Hl2 by lia.
  assert (Hc12 : c1 <> c2).
  { intros ->. pose proof (NoDup_lookup _ _ _ _ Hnd Hl1 Hl2). lia. }
  destruct (current_field st c1 Hcur1) as (s1 & seeded1 & Hs1 & Hk1 & Hseed1 & Hother1).
  pose proof (run_wizard_nav inp1 st c1 s1 seeded1 Hcur1 ltac:(lia) Hs1 Hseed1) as Hrun1.
  rewrite Hc1 in Hrun1. specialize (Hrun1 ltac:(discriminate) ltac:(discriminate)).
  unfold moved in Hrun1. fold n in Hrun1.
  destruct (Z.ltb_spec (wizard_idx st) (n - 1)) as [_|Hge]; [|lia].
  rewrite (run_is_run_wizard lib inp1 st Hne). rewrite Hrun1. simpl after.
  set (st1 := mkState _ _ _ _ _).
  assert (Hcur2' : py_index (columns (df st1)) (wizard_idx st1) = Some c2) by exact Hcur2.
  destruct (current_field st1 c2 Hcur2') as (s2 & seeded2 & Hs2 & Hk2 & Hseed2 & Hother2).
  assert (Hlow2 : (-1 <= wizard_idx st1)%Z) by (simpl; lia).
  pose proof (run_wizard_nav inp2 st1 c2 s2 seeded2 Hcur2' Hlow2 Hs2 Hseed2) as Hrun2.
  rewrite Hc2 in Hrun2. specialize (Hrun2 ltac:(discriminate) ltac:(discriminate)).
  unfold moved in Hrun2. simpl wizard_idx in Hrun2.
  destruct (Z.ltb_spec 0 (wizard_idx st + 1)) as [_|Hle]; [|lia].
  rewrite (run_is_run_wizard lib inp2 st1) by exact Hne. rewrite Hrun2.
  eexists _, c1, c2, _, _. split; [reflexivity|].
  split; [exact Hl1|]. split; [exact Hl2|]. split; [exact Hk1|]. split; [exact Hk2|].
  simpl. split; [lia|]. split; [reflexivity|]. split; [reflexivity|]. split.
  - rewrite lookup_insert_ne by congruence. rewrite (Hother2 c1 Hc12).
    simpl. apply lookup_insert_eq.
  - apply lookup_insert_eq.
Qed.

(** X6. From a session the script can reach, with distinct column
    labels, a run ends in an exception in one case only: Save at the
    last field with an entry that is parsed, under the integer kind, as
    an integer outside 64 bits.  The exception comes from the preview
    of the saved row: the table then has the new row and the file
    holds it.  Every other run returns. *)
Theorem run_raises_in_preview_only (fs : filesystem) (inp : inputs) (st : state) :
  reachable lib fs st ->
  NoDup (columns (df st)) ->
  (exists st', run lib inp st = Returned st')
  \/ (exists st' cur s_cur p n,
        run lib inp st = Raised st'
        /\ clicked inp = SaveDone
        /\ wizard_idx st = (Z.of_nat (length (columns (df st))) - 1)%Z
        /\ py_index (columns (df st)) (wizard_idx st) = Some cur
        /\ df_col (df st) cur = Some s_cur
        /\ p ∈ df st
        /\ infer_input_type lib p.2 = "int"
        /\ saved_cell lib inp st cur s_cur p = VInt n
        /\ ~ (INT64_MIN <= n <= UINT64_MAX)%Z
        /\ nrows (df st') = S (nrows (df st))
        /\ files st' !! csv_path st' = Some (to_csv lib (df st'))).
Proof.
  intros Hreach Hnd.
  destruct (df st) as [|p0 d] eqn:Hdf.
  - left. unfold run. rewrite Hdf. eauto.
  - assert (Hne : df st <> []) by (rewrite Hdf; discriminate). rewrite <- Hdf in *.
    destruct (reachable_position lib fs st Hreach) as [[Hnil _]|Hidx]; [contradiction|].
    destruct (py_index_valid (columns (df st)) (wizard_idx st) Hidx) as (cur & Hcur & _).
    destruct (current_field st cur Hcur) as (s_cur & seeded & Hs & Hk & Hseed & _).
    assert (Hlow : (-1 <= wizard_idx st)%Z) by lia.
    assert (Hr : clicked inp = ResetWizard \/ clicked inp <> ResetWizard)
      by (destruct (clicked inp); (left; reflexivity) || (right; discriminate)).
    destruct Hr as [Hr|Hr].
    { left. rewrite (reset_discards_draft_aux inp st cur Hne Hcur Hlow Hr). eauto. }
    assert (Hsv : clicked inp = SaveDone \/ clicked inp <> SaveDone)
      by (destruct (clicked inp); (left; reflexivity) || (right; discriminate)).
    destruct Hsv as [Hc|Hc];
      [destruct (Z.eq_dec (wizard_idx st) (Z.of_nat (length (columns (df st))) - 1)%Z)
         as [Hlast|Hlast]|].
    + destruct (run_save lib inp st Hne Hnd Hc Hlast) as (cur' & s' & Hcur' & Hs' & Hrun).
      cbv zeta in Hrun. rewrite Hrun.
      destruct (forallb _ _) eqn:Hall; [left; eauto|].
      right.
      destruct (forallb_false_elem _ _ Hall) as (p & Hp & Hshow).
      destruct (arrow_ok_false _ Hshow) as (n & Hn & Hrange).
      eexists _, cur', s', p, n. split; [reflexivity|].
      split; [exact Hc|]. split; [exact Hlast|]. split; [exact Hcur'|].
      split; [exact Hs'|]. split; [exact Hp|]. split.
      { unfold saved_cell, parse_value in Hn.
        destruct (String.eqb_spec (infer_input_type lib p.2) "bool"); [discriminate|].
        destruct (String.eqb_spec (infer_input_type lib p.2) "int") as [Hi|]; [exact Hi|].
        destruct (String.eqb (infer_input_type lib p.2) "float").
        - destruct (blank _); [discriminate|]. destruct (py_float _ _); discriminate.
        - destruct (draft_value _ _ _ _ _); discriminate. }
      split; [exact Hn|]. split; [exact Hrange|]. cbn [df files csv_path]. split.
      * destruct (df st) as [|[c s] d']; [contradiction|]. simpl.
        apply concat_column_length.
      * unfold save_csv_atomic, os_replace. cbv zeta.
        rewrite lookup_insert_eq. apply lookup_insert_eq.
    + left. rewrite run_is_run_wizard by exact Hne.
      rewrite (run_wizard_nav inp st cur s_cur seeded Hcur Hlow Hs Hseed Hr); [eauto|].
      intros _. exact Hlast.
    + left. rewrite run_is_run_wizard by exact Hne.
      rewrite (run_wizard_nav inp st cur s_cur seeded Hcur Hlow Hs Hseed Hr); [eauto|].
      intros Hc'. contradiction.
Qed.

End NavigationFacts.

(** ** The row that Save appends *)

Section SavedRowFacts.
Context (lib : Library).

(** The save branch, whichever way the run ends: the session it leaves. *)
Lemma run_save_after (inp : inputs) (st : state) :
  df st <> [] ->
  NoDup (columns (df st)) ->
  clicked inp = SaveDone ->
  wizard_idx st = (Z.of_nat (length (columns (df st))) - 1)%Z ->
  exists cur s_cur,
    py_index (columns (df st)) (wizard_idx st) = Some cur
    /\ df_col (df st) cur = Some s_cur
    /\ df (after (run lib inp st))
       = (fun p : string * Series =>
            (p.1, concat_column lib p.2 (saved_cell lib inp st cur s_cur p))) <$> df st
    /\ (forallb (fun p => arrow_ok (saved_cell lib inp st cur s_cur p)) (df st) = true ->
        run lib inp st = Returned (after (run lib inp st))).
Proof.
  intros Hne Hnd Hc Hidx.
  destruct (run_save lib inp st Hne Hnd Hc Hidx) as (cur & s_cur & Hcur & Hs & Hrun).
  cbv zeta in Hrun. exists cur, s_cur. split; [exact Hcur|]. split; [exact Hs|].
  rewrite Hrun, after_ended. split; [reflexivity|]. intros ->. reflexivity.
Qed.

Lemma last_concat_column (s : Series) (v : value) :
  last (s_values (concat_column lib s v))
  = Some (cast lib (s_dtype (concat_column lib s v)) v).
Proof. unfold concat_column. cbn [s_values s_dtype]. rewrite fmap_app. apply last_snoc. Qed.





(** X8. When Save is pressed at the last field, a column that is not on
    screen and has no draft value (a field never visited, as after Jump
    to last) gets as its new cell the value parsed from the empty
    string: false under the boolean kind, a null under the integer and
    float kinds, the empty string under the text kind. *)
Theorem save_defaults_unvisited (inp : inputs) (st : state) :
  df st <> [] ->
  NoDup (columns (df st)) ->
  clicked inp = SaveDone ->
  wizard_idx st = (Z.of_nat (length (columns (df st))) - 1)%Z ->
  exists cur,
    py_index (columns (df st)) (wizard_idx st) = Some cur
    /\ Forall2 (fun p p' : string * Series =>
                  p'.1 = p.1
                  /\ (p.1 <> cur -> temp_row st !! p.1 = None ->
                      let cell := last (s_values p'.2) in
                      (infer_input_type lib p.2 = "bool" -> cell = Some (VBool false))
                      /\ (infer_input_type lib p.2 = "int" -> cell = Some VNone)
                      /\ (infer_input_type lib p.2 = "float" -> cell = Some VNone)
                      /\ (infer_input_type lib p.2 = "text" -> cell = Some (VStr ""))))
               (df st) (df (after (run lib inp st))).
Proof.
  intros Hne Hnd Hc Hidx.
  destruct (run_save_after inp st Hne Hnd Hc Hidx) as (cur & s_cur & Hcur & Hs & -> & _).
  exists cur. split; [exact Hcur|].
  apply Forall2_fmap_r, Forall_Forall2_diag, Forall_forall. intros p Hin.
  cbn [fst snd]. split; [reflexivity|]. intros Hneq Hnone. cbv zeta. cbn [fst snd].
  rewrite last_concat_column. unfold saved_cell, draft_value.
  destruct (String.eqb_spec p.1 cur) as [Heq|_]; [contradiction|].
  rewrite Hnone. simpl default.
  set (d := s_dtype _).
  repeat split; intros ->; destruct d; reflexivity.
Qed.

Lemma text_cell_plain (r : raw) (d : dtype) :
  cast lib d (parse_value lib r "text") = parse_value lib r "text"
  /\ arrow_ok (parse_value lib r "text") = true.
Proof. destruct r; destruct d; split; reflexivity. Qed.

(** X9. In a table without rows every field is a text field, so the
    first row is saved as it was typed: Save at the last field gives a
    table of one row that holds, in the column on screen, the text of
    the box as a string, and in another column the string drafted for
    it. *)
Theorem first_row_is_text (inp : inputs) (st : state) :
  df st <> [] ->
  NoDup (columns (df st)) ->
  (forall p : string * Series, p ∈ df st -> s_values p.2 = []) ->
  clicked inp = SaveDone ->
  wizard_idx st = (Z.of_nat (length (columns (df st))) - 1)%Z ->
  exists st' cur (row : string -> value),
    run lib inp st = Returned st'
    /\ py_index (columns (df st)) (wizard_idx st) = Some cur
    /\ table_values (df st') = (fun p : string * Series => (p.1, [row p.1])) <$> df st
    /\ row cur = VStr (text inp)
    /\ forall c t, c ∈ columns (df st) -> c <> cur -> temp_row st !! c = Some (RStr t) ->
         row c = VStr t.
Proof.
  intros Hne Hnd Hempty Hc Hidx.
  destruct (run_save_after inp st Hne Hnd Hc Hidx) as (cur & s_cur & Hcur & Hs & Hdf & Hret).
  assert (Htext : forall p : string * Series, p ∈ df st -> infer_input_type lib p.2 = "text").
  { intros p Hin. unfold infer_input_type. rewrite (Hempty p Hin). reflexivity. }
  assert (Hcurin : (cur, s_cur) ∈ df st).
  { pose proof (df_col_spec (df st) cur) as H. rewrite Hs in H. exact H. }
  assert (Hcell : forall p : string * Series, p ∈ df st ->
            saved_cell lib inp st cur s_cur p
            = parse_value lib (draft_value "text" inp cur (temp_row st) p.1) "text").
  { intros p Hin. unfold saved_cell. rewrite (Htext p Hin).
    pose proof (Htext _ Hcurin) as Hk. simpl in Hk. rewrite Hk. reflexivity. }
  set (row := fun c => parse_value lib (draft_value "text" inp cur (temp_row st) c) "text").
  exists (after (run lib inp st)), cur, row.
  split; [|split; [exact Hcur|split; [|split]]].
  - apply Hret. apply forallb_forall. intros p Hin. apply list_elem_of_In in Hin.
    rewrite (Hcell p Hin). apply (text_cell_plain _ DObject).
  - rewrite Hdf. unfold table_values. rewrite <- list_fmap_compose.
    apply Forall_fmap_ext_1, Forall_forall. intros p Hin. cbn [compose fst snd].
    unfold concat_column. cbn [s_values]. rewrite (Hempty p Hin), (Hcell p Hin).
    cbn [app fmap list_fmap]. unfold row.
    rewrite (proj1 (text_cell_plain _ _)). reflexivity.
  - unfold row, draft_value. rewrite String.eqb_refl. reflexivity.
  - intros c t Hin Hneq Ht. unfold row, draft_value.
    destruct (String.eqb_spec c cur) as [Heq|_]; [contradiction|].
    rewrite Ht. reflexivity.
Qed.

End SavedRowFacts.

(** ** Table and file across runs *)

Section PersistenceFacts.
Context (lib : Library).

Lemma concat_row_rectangular (d d' : DataFrame) (row : gmap string value) :
  d <> [] -> rectangular d -> concat_row lib d row = Some d' ->
  rectangular d' /\ nrows d' = S (nrows d).
Proof.
  intros Hne Hrect Hcat. unfold concat_row in Hcat.
  case_bool_decide; [|discriminate].
  set (f := fun p : string * Series => _) in Hcat. injection Hcat as <-.
  assert (Hn : nrows (f <$> d) = S (nrows d)).
  { destruct d as [|[c s] d]; [contradiction|]. unfold f. simpl.
    apply concat_column_length. }
  split; [|exact Hn].
  intros p' Hin. rewrite Hn. apply list_elem_of_fmap in Hin as (p & -> & Hin).
  unfold f. cbn [snd]. rewrite concat_column_length, (Hrect p Hin). reflexivity.
Qed.

(** X10. Every run keeps the table rectangular: if all columns have as
    many values as the table has rows before the run, they do after
    it; and a run leaves the number of rows as it was or adds one. *)
Theorem run_keeps_rectangular (inp : inputs) (st : state) :
  rectangular (df st) ->
  let st' := after (run lib inp st) in
  rectangular (df st')
  /\ (nrows (df st') = nrows (df st) \/ nrows (df st') = S (nrows (df st))).
Proof.
  intros Hrect st'. subst st'. unfold run.
  destruct (df st) as [|p0 d0] eqn:Hdf.
  - simpl after. unfold run_headers.
    destruct (click_eqb _ _); [|rewrite Hdf; split; [exact Hrect | left; reflexivity]].
    destruct (filter _ _) as [|c cols];
      [rewrite Hdf; split; [exact Hrect | left; reflexivity]|].
    simpl df. split; [|left; reflexivity].
    intros p Hin. apply elem_of_cons in Hin as [->|Hin]; [reflexivity|].
    apply list_elem_of_fmap in Hin as (c' & -> & _). reflexivity.
  - rewrite <- Hdf in *.
    assert (Hne : df st <> []) by (rewrite Hdf; discriminate).
    destruct (run_wizard_effect lib inp st) as [[Hsame _]|(_ & _ & _ & _ & row & Hcat)].
    + rewrite Hsame. split; [exact Hrect | left; reflexivity].
    + destruct (concat_row_rectangular _ _ _ Hne Hrect Hcat) as [Hr Hn].
      split; [exact Hr | right; exact Hn].
Qed.

(** What a run does to path, table and files: the path stays; either
    table and files stay too, or the new table has been saved. *)
Lemma run_persists (inp : inputs) (st : state) :
  let st' := after (run lib inp st) in
  csv_path st' = csv_path st
  /\ ((df st' = df st /\ files st' = files st)
      \/ files st' = save_csv_atomic lib (df st') (csv_path st) (files st)).
Proof.
  intros st'. subst st'. unfold run. destruct (df st) as [|p0 d0] eqn:Hdf.
  - simpl after. unfold run_headers.
    destruct (click_eqb _ _); [|rewrite Hdf; auto].
    destruct (filter _ _) as [|c cols]; [rewrite Hdf; auto|].
    simpl. auto.
  - rewrite <- Hdf. clear Hdf p0 d0. unfold run_wizard.
    destruct (py_index _ _) as [cur|]; [|simpl; auto].
    destruct (wizard_idx st + 1 <? 0)%Z; [simpl; auto|].
    destruct (seed _ _ _) as [seeded|]; [|simpl; auto].
    destruct (kinds_of lib (df st) !! cur) as [kind|]; [|simpl; auto].
    cbv zeta. unfold utility_row.
    destruct (clicked inp) eqn:Hc; simpl; auto.
    + destruct (0 <? wizard_idx st)%Z; simpl; auto.
    + destruct (wizard_idx st <? _)%Z; simpl; auto.
    + destruct (wizard_idx st =? _)%Z; simpl; [|auto].
      destruct (save_row _ _ _ _) as [[row st2]|] eqn:Hs; simpl; [|auto].
      apply save_row_inv in Hs as (new_df & _ & _ & ->).
      destruct (preview_ok _ _); simpl; auto.
Qed.

Lemma run_same_table (inp : inputs) (st : state) :
  df (after (run lib inp st)) = df st -> files (after (run lib inp st)) = files st.
Proof.
  assert (Hcase : df st = [] \/ df st <> [])
    by (destruct (df st); [left; reflexivity | right; discriminate]).
  destruct Hcase as [Hnil|Hne].
  - unfold run. rewrite Hnil. simpl after. unfold run_headers.
    destruct (click_eqb _ _); [|reflexivity].
    destruct (filter _ _) as [|c cols]; [reflexivity|].
    simpl. discriminate.
  - rewrite (run_is_run_wizard lib inp st Hne). intros Hdf.
    destruct (run_wizard_effect lib inp st) as [[_ Hf]|(_ & _ & _ & _ & row & Hcat)];
      [exact Hf|].
    exfalso. rewrite Hdf in Hcat.
    exact (concat_row_ne lib _ _ _ Hne Hcat eq_refl).
Qed.

(** X11. Whatever the run, the table of the session changes only
    together with the file: after a run that changed the table, the
    file at the session's path holds the serialization of the new
    table; after a run that did not, the files are as they were. *)
Theorem table_change_is_saved (inp : inputs) (st : state) :
  let st' := after (run lib inp st) in
  (df st' <> df st -> files st' !! csv_path st' = Some (to_csv lib (df st')))
  /\ (df st' = df st -> files st' = files st).
Proof.
  intros st'. subst st'. split; [|apply run_same_table].
  destruct (run_persists inp st) as [Hpath [[Hdf Hfiles]|Hsaved]].
  - intros Hne. contradiction.
  - intros _. rewrite Hpath, Hsaved. apply save_csv_atomic_lookup.
Qed.

(** X12. In every session the script can reach, the path is the
    configured one and a file exists there: loading creates it when it
    is missing, and saving replaces it. *)
Theorem file_always_exists (fs : filesystem) (st : state) :
  reachable lib fs st ->
  csv_path st = DEFAULT_CSV_PATH /\ is_Some (files st !! DEFAULT_CSV_PATH).
Proof.
  induction 1 as [|inp st _ [IHp IHf]].
  - unfold start, load_csv. destruct (fs !! DEFAULT_CSV_PATH) as [f|] eqn:Hf.
    + destruct (read_csv lib f); simpl; rewrite Hf; eauto.
    + simpl. rewrite lookup_insert_eq. eauto.
  - destruct (run_persists inp st) as [Hpath [[_ Hfiles]|Hsaved]].
    + rewrite Hpath, Hfiles. auto.
    + rewrite Hpath, Hsaved, IHp. split; [reflexivity|].
      rewrite save_csv_atomic_lookup. eauto.
Qed.

(** X13. Loading is idempotent: loading again from the files a load
    left gives the same table and leaves those files as they are; in
    particular the file created for a missing path is read back as the
    empty table. *)
Theorem load_csv_idempotent (path : string) (fs : filesystem) :
  load_csv lib path (load_csv lib path fs).2 = load_csv lib path fs.
Proof.
  unfold load_csv at 2 3. destruct (fs !! path) as [f|] eqn:Hf.
  - destruct (read_csv lib f) as [d|] eqn:Hd; simpl; unfold load_csv; rewrite Hf, Hd;
      reflexivity.
  - simpl. unfold load_csv. rewrite lookup_insert_eq.
    change (read_csv lib (to_csv lib [])) with (@None DataFrame). reflexivity.
Qed.

(** X14. A save replaces what an earlier save to the same path left:
    saving one table and then another gives the files that saving the
    second alone gives, with no temporary file left behind. *)
Theorem save_csv_atomic_last_wins (d1 d2 : DataFrame) (path : string) (fs : filesystem) :
  save_csv_atomic lib d2 path (save_csv_atomic lib d1 path fs)
  = save_csv_atomic lib d2 path fs
  /\ save_csv_atomic lib d2 path (save_csv_atomic lib d1 path fs) !! tmp_path path = None.
Proof.
  pose proof (tmp_path_ne path) as Hne.
  assert (Hgen : forall (d : DataFrame) (g : filesystem) (p : string),
    save_csv_atomic lib d path g !! p
    = if decide (p = path) then Some (to_csv lib d)
      else if decide (p = tmp_path path) then None else g !! p).
  { intros d g p. unfold save_csv_atomic, os_replace. cbv zeta. rewrite lookup_insert_eq.
    destruct (decide (p = path)) as [->|Hp]; [apply lookup_insert_eq|].
    rewrite lookup_insert_ne by congruence.
    destruct (decide (p = tmp_path path)) as [->|Ht]; [apply lookup_delete_eq|].
    rewrite lookup_delete_ne by congruence. apply lookup_insert_ne. congruence. }
  split.
  - apply map_eq. intros p. rewrite !Hgen.
    destruct (decide (p = path)); [reflexivity|].
    destruct (decide (p = tmp_path path)); reflexivity.
  - rewrite Hgen. rewrite decide_False by exact Hne. rewrite decide_True by reflexivity.
    reflexivity.
Qed.

End PersistenceFacts.

(** ** Creating the headers *)

Lemma lstrip_chars (s : string) (c : ascii) :
  In c (list_ascii_of_string (lstrip s)) -> In c (list_ascii_of_string s).
Proof.
  induction s as [|a s IH]; [trivial|]. simpl.
  destruct (py_isspace a); [intros H; right; apply IH, H | trivial].
Qed.

Lemma rstrip_chars (s : string) (c : ascii) :
  In c (list_ascii_of_string (rstrip s)) -> In c (list_ascii_of_string s).
Proof.
  induction s as [|a s IH]; [trivial|]. simpl.
  destruct (rstrip s) as [|b r].
  - destruct (py_isspace a); simpl; [contradiction | intros [H|[]]; left; exact H].
  - simpl in *. intros [H|H]; [left; exact H | right; apply IH, H].
Qed.

Lemma strip_chars (s : string) (c : ascii) :
  In c (list_ascii_of_string (strip s)) -> In c (list_ascii_of_string s).
Proof. intros H. apply lstrip_chars, rstrip_chars, H. Qed.

Lemma strip_fixed_head (s : string) :
  strip s = s -> s <> EmptyString ->
  exists h r, s = String h r /\ py_isspace h = false.
Proof.
  unfold strip. intros Hs Hne.
  destruct (lstrip_head s) as [Hl|(h & r & Hl & Hh)].
  - rewrite Hl in Hs. simpl in Hs. congruence.
  - rewrite Hl in Hs. destruct (rstrip_head h r Hh) as [r' Hr']. rewrite Hr' in Hs.
    exists h, r'. split; [congruence | exact Hh].
Qed.

Lemma split_on_pieces (sep : ascii) (s piece : string) :
  piece ∈ split_on sep s ->
  ~ In sep (list_ascii_of_string piece)
  /\ forall c, In c (list_ascii_of_string piece) -> In c (list_ascii_of_string s).
Proof.
  revert piece. induction s as [|a s IH]; intros piece Hin.
  - simpl in Hin. apply list_elem_of_singleton in Hin as ->. split; [intros []|trivial].
  - simpl in Hin. destruct (Ascii.eqb_spec a sep) as [->|Hne].
    + apply elem_of_cons in Hin as [->|Hin]; [split; [intros []|intros c []]|].
      destruct (IH piece Hin) as [H1 H2]. split; [exact H1|]. intros c Hc. right. apply H2, Hc.
    + destruct (split_on sep s) as [|h t] eqn:Hsplit.
      * apply list_elem_of_singleton in Hin as ->. simpl.
        split; [intros [H|[]]; congruence | intros c [H|[]]; left; exact H].
      * apply elem_of_cons in Hin as [->|Hin].
        -- destruct (IH h (list_elem_of_here _ _)) as [H1 H2]. simpl. split.
           ++ intros [H|H]; [congruence | exact (H1 H)].
           ++ intros c [H|H]; [left; exact H | right; apply H2, H].
        -- destruct (IH piece (list_elem_of_further _ _ _ Hin)) as [H1 H2].
           split; [exact H1|]. intros c Hc. right. apply H2, Hc.
Qed.

Section HeaderFacts.
Context (lib : Library).

(** The labels Create headers makes of the text box. *)
Lemma header_labels (inp : inputs) (c : string) :
  c ∈ filter (fun c : string => c ≠ "") (strip <$> split_on "," (cols_input inp)) ->
  c <> "" /\ strip c = c
  /\ ~ In ","%char (list_ascii_of_string c)
  /\ forall a, In a (list_ascii_of_string c) -> In a (list_ascii_of_string (cols_input inp)).
Proof.
  intros Hin. apply list_elem_of_filter in Hin as [Hne Hin].
  apply list_elem_of_fmap in Hin as (piece & -> & Hpiece).
  destruct (split_on_pieces _ _ _ Hpiece) as [Hsep Hsub].
  split; [exact Hne|]. split; [apply strip_idem|]. split.
  - intros H. apply Hsep, strip_chars, H.
  - intros a Ha. apply Hsub, strip_chars, Ha.
Qed.

(** X15. Create headers, pressed while the table has no column, makes
    a table whose labels are the comma-separated pieces of the text box,
    trimmed, the empty ones left out: no label is empty, has white space
    around it or holds a comma.  Every column is empty and of the text
    kind, and the wizard is at index 0.  When no label is left the
    session stays as it was. *)
Theorem created_headers_clean (inp : inputs) (st : state) :
  df st = [] ->
  clicked inp = CreateHeaders ->
  let st' := after (run lib inp st) in
  columns (df st')
  = filter (fun c : string => c ≠ "") (strip <$> split_on "," (cols_input inp))
  /\ (forall p : string * Series, p ∈ df st' ->
        p.1 <> "" /\ strip p.1 = p.1
        /\ ~ In ","%char (list_ascii_of_string p.1)
        /\ s_values p.2 = []
        /\ kinds_of lib (df st') !! p.1 = Some "text")
  /\ (df st' = [] -> st' = st)
  /\ (df st' <> [] -> wizard_idx st' = 0%Z /\ temp_row st' = ∅).
Proof.
  intros Hnil Hc st'. subst st'. unfold run. rewrite Hnil. simpl after.
  unfold run_headers. rewrite Hc. simpl click_eqb. cbv iota.
  pose proof (header_labels inp) as Hlab.
  destruct (filter _ _) as [|c0 cols] eqn:Hcols.
  - rewrite Hnil. split; [reflexivity|]. split; [intros p Hp; inversion Hp|].
    split; [reflexivity | intros H; contradiction].
  - set (labels := c0 :: cols) in *.
    set (d := (fun c => (c, mkSeries DObject [])) <$> labels).
    change (df (reset_wizard true (set_files _ (set_df _ st)))) with d.
    assert (Hcolsd : columns d = labels).
    { unfold d, columns. rewrite <- list_fmap_compose. apply list_fmap_id. }
    split; [exact Hcolsd|]. split; [|split; [discriminate | intros _; split; reflexivity]].
    intros [c s] Hin. simpl.
    assert (Hall : forall q : string * Series, q ∈ d -> q.2 = mkSeries DObject [] /\ q.1 ∈ labels).
    { intros q Hq. apply list_elem_of_fmap in Hq as (c' & -> & Hc'). auto. }
    destruct (Hall _ Hin) as [Hs Hcin]. simpl in Hs, Hcin. subst s.
    destruct (Hlab c Hcin) as (H1 & H2 & H3 & _).
    repeat split; try assumption.
    rewrite kinds_of_lookup.
    destruct (df_col_elem d c) as (s & -> & Hs).
    { rewrite Hcolsd. exact Hcin. }
    destruct (Hall _ Hs) as [Hs' _]. simpl in Hs'. subst s. reflexivity.
Qed.

Lemma blank_char_space (a : ascii) :
  Ascii.eqb a " " || Ascii.eqb a "009" = true -> py_isspace a = true.
Proof.
  intros H. apply orb_true_iff in H as [H|H]; apply Ascii.eqb_eq in H; subst a; reflexivity.
Qed.

(** The file of a table of empty object columns, with distinct trimmed
    labels without line breaks, is read back as that table. *)
Lemma read_csv_headers (labels : list string) :
  labels <> [] ->
  NoDup labels ->
  bom_led labels = false ->
  (forall c, c ∈ labels -> c <> "" /\ strip c = c /\ no_line_break c = true) ->
  read_csv lib (to_csv lib ((fun c => (c, mkSeries DObject [])) <$> labels))
  = Some ((fun c => (c, mkSeries DObject [])) <$> labels).
Proof.
  intros Hne Hnd Hbom Hlab.
  set (d := (fun c => (c, mkSeries DObject [])) <$> labels).
  assert (Hcsv : to_csv lib d = [labels]).
  { unfold to_csv. replace (columns d) with labels.
    - destruct labels; [contradiction | reflexivity].
    - unfold d, columns. rewrite <- list_fmap_compose. symmetry. apply list_fmap_id. }
  rewrite Hcsv. unfold read_csv.
  destruct (skip_bom_none labels [] Hbom) as [-> ->].
  assert (Hblank : blank_line labels = false).
  { destruct labels as [|c0 [|c1 rest]]; [contradiction| |reflexivity].
    destruct (Hlab c0 (list_elem_of_here _ _)) as (Hc0 & Hstrip & _).
    destruct (strip_fixed_head c0 Hstrip Hc0) as (h & r & -> & Hh).
    simpl. destruct (Ascii.eqb h " " || Ascii.eqb h "009") eqn:Hb; [|reflexivity].
    rewrite (blank_char_space h Hb) in Hh. discriminate. }
  rewrite filter_cons_True by (rewrite Hblank; exact I).
  rewrite filter_nil.
  assert (Hreg : regular lib labels [] = true).
  { unfold regular. rewrite (bool_decide_eq_true_2 _ Hnd).
    rewrite bool_decide_eq_true_2.
    2:{ intros Hin. destruct (Hlab _ Hin) as [H _]. apply H. reflexivity. }
    simpl. rewrite andb_true_r. apply forallb_forall. intros c Hc.
    apply list_elem_of_In in Hc. apply (Hlab c Hc). }
  rewrite Hreg. f_equal.
  transitivity (imap (const (fun c : string => (c, mkSeries DObject []))) labels);
    [reflexivity | apply imap_const].
Qed.

(** X16. Headers survive a restart.  When Create headers makes a table
    with distinct labels, the first of which does not start with a
    byte-order mark, from a text box without line breaks, a session
    started afresh on the files it wrote is the session it left: the
    same table of empty columns, the wizard at index 0, no draft. *)
Theorem headers_survive_restart (inp : inputs) (st : state) :
  df st = [] ->
  csv_path st = DEFAULT_CSV_PATH ->
  clicked inp = CreateHeaders ->
  no_line_break (cols_input inp) = true ->
  let st' := after (run lib inp st) in
  df st' <> [] ->
  NoDup (columns (df st')) ->
  bom_led (columns (df st')) = false ->
  start lib (files st') = st'.
Proof.
  intros Hnil Hpath Hc Hbreak st'. subst st'. unfold run. rewrite Hnil. simpl after.
  unfold run_headers. rewrite Hc. simpl click_eqb. cbv iota.
  pose proof (header_labels inp) as Hlab.
  destruct (filter _ _) as [|c0 cols] eqn:Hcols; [rewrite Hnil; contradiction|].
  set (labels := c0 :: cols) in *.
  set (d := (fun c => (c, mkSeries DObject [])) <$> labels).
  change (reset_wizard true (set_files _ (set_df _ st)))
    with (mkState (csv_path st) d 0 ∅ (save_csv_atomic lib d (csv_path st) (files st))).
  simpl df. simpl files. intros _ Hnd Hbom.
  assert (Hcolsd : columns d = labels).
  { unfold d, columns. rewrite <- list_fmap_compose. apply list_fmap_id. }
  rewrite Hcolsd in Hnd, Hbom. rewrite Hpath.
  unfold start, load_csv. rewrite save_csv_atomic_lookup.
  unfold d at 1.
  rewrite read_csv_headers; [reflexivity | discriminate | exact Hnd | exact Hbom |].
  intros c Hin. destruct (Hlab c Hin) as (H1 & H2 & _ & Hsub).
  split; [exact H1|]. split; [exact H2|].
  unfold no_line_break in *. rewrite forallb_forall in Hbreak.
  apply forallb_forall. intros a Ha. apply Hbreak, Hsub, Ha.
Qed.

End HeaderFacts.

(** ** Jumping to the last field *)

Section JumpFacts.
Context (lib : Library).

(** X17. Jump to last and then Save.  In a table with distinct labels,
    from whatever field the wizard is at, Jump to last returns with the
    wizard at the last field, and Save in the next run appends a row:
    the table keeps its labels and has one row more, the file at the
    session's path holds the new table, and the wizard is back at
    index 0 with an empty draft.  This is the session the Save run
    leaves whether it returns or ends in the preview of the row. *)
Theorem jump_last_then_save (inp1 inp2 : inputs) (st : state) :
  NoDup (columns (df st)) ->
  (0 <= wizard_idx st < Z.of_nat (length (columns (df st))))%Z ->
  clicked inp1 = JumpLast ->
  clicked inp2 = SaveDone ->
  let st1 := after (run lib inp1 st) in
  let st2 := after (run lib inp2 st1) in
  run lib inp1 st = Returned st1
  /\ wizard_idx st1 = (Z.of_nat (length (columns (df st))) - 1)%Z
  /\ columns (df st2) = columns (df st)
  /\ nrows (df st2) = S (nrows (df st))
  /\ files st2 !! csv_path st = Some (to_csv lib (df st2))
  /\ wizard_idx st2 = 0%Z /\ temp_row st2 = ∅.
Proof.
  intros Hnd Hidx Hc1 Hc2.
  assert (Hne : df st <> []).
  { intros Hnil. rewrite Hnil in Hidx. simpl in Hidx. lia. }
  destruct (py_index_valid (columns (df st)) (wizard_idx st) Hidx) as (cur & Hcur & _).
  destruct (current_field lib st cur Hcur) as (s_cur & seeded & Hs & _ & Hseed & _).
  rewrite (run_is_run_wizard lib inp1 st Hne).
  rewrite (run_wizard_nav lib inp1 st cur s_cur seeded Hcur ltac:(lia) Hs Hseed)
    by (rewrite Hc1; discriminate).
  rewrite Hc1. simpl after. simpl moved. cbv zeta.
  set (st1 := mkState _ _ _ _ _).
  destruct (run_save lib inp2 st1 Hne Hnd Hc2 eq_refl) as (cur' & s' & _ & _ & Hrun).
  cbv zeta in Hrun. rewrite Hrun, after_ended. cbn [df files wizard_idx temp_row].
  split; [reflexivity|]. split; [reflexivity|]. split; [|split; [|split]].
  - unfold columns. rewrite <- list_fmap_compose. reflexivity.
  - destruct (df st) as [|[c s] d]; [contradiction|]. simpl.
    apply concat_column_length.
  - apply (save_csv_atomic_lookup lib).
  - split; reflexivity.
Qed.

End JumpFacts.

(** ** The further properties on the sample sessions *)

Lemma sample_opened_NoDup : NoDup (columns (df sample_opened)).
Proof. apply (bool_decide_unpack _). vm_compute. exact I. Defined.


Lemma sample_jumped_NoDup : NoDup (columns (df sample_jumped)).
Proof. apply (bool_decide_unpack _). vm_compute. exact I. Defined.

Lemma sample_created_NoDup : NoDup (columns (df sample_created)).
Proof. apply (bool_decide_unpack _). vm_compute. exact I. Defined.

Lemma sample_fresh_NoDup : NoDup (columns (df sample_fresh)).
Proof. apply (bool_decide_unpack _). vm_compute. exact I. Defined.

Lemma navigation_keeps_draft_witness :
  exists st',
    run sample_lib sample_next sample_opened = Returned st'
    /\ df st' = df sample_opened
    /\ temp_row st' !! "A" = Some (RStr "draft").
Proof.
  destruct (navigation_keeps_draft sample_lib sample_next sample_opened "A")
    as (st' & kind & Hrun & Hkind & Hdf & _ & Hcur & _).
  - vm_compute. discriminate.
  - vm_compute. reflexivity.
  - vm_compute. discriminate.
  - discriminate.
  - intros H. discriminate H.
  - exists st'. split; [exact Hrun|]. split; [exact Hdf|].
    vm_compute in Hkind. injection Hkind as <-. exact Hcur.
Defined.

Lemma reset_discards_draft_witness :
  temp_row sample_second !! "A" = Some (RStr "draft")
  /\ run sample_lib sample_reset sample_second
     = Returned (mkState (csv_path sample_second) (df sample_second) 0 ∅
                   (files sample_second)).
Proof.
  split; [vm_compute; reflexivity|].
  apply (reset_discards_draft sample_lib sample_files sample_reset sample_second).
  - apply reach_run, reach_start.
  - vm_compute. discriminate.
  - reflexivity.
Defined.

Lemma next_then_back_witness :
  exists st2,
    run sample_lib sample_back (after (run sample_lib sample_next sample_opened))
    = Returned st2
    /\ wizard_idx st2 = 0%Z
    /\ temp_row st2 !! "A" = Some (RStr "draft")
    /\ temp_row st2 !! "B" = Some (RStr "other").
Proof.
  destruct (next_then_back sample_lib sample_next sample_back sample_opened)
    as (st2 & c1 & c2 & k1 & k2 & Hrun & Hc1 & Hc2 & Hk1 & Hk2 & Hidx & _ & _ & H1 & H2).
  - exact sample_opened_NoDup.
  - vm_compute. split; [discriminate | reflexivity].
  - reflexivity.
  - reflexivity.
  - vm_compute in Hc1. injection Hc1 as <-.
    vm_compute in Hc2. injection Hc2 as <-.
    vm_compute in Hk1. injection Hk1 as <-.
    vm_compute in Hk2. injection Hk2 as <-.
    exists st2. split; [exact Hrun|]. split; [exact Hidx|]. split; [exact H1 | exact H2].
Defined.

Lemma run_raises_in_preview_only_witness :
  exists st' n,
    run sample_lib sample_huge_save sample_ints = Raised st'
    /\ saved_cell sample_lib sample_huge_save sample_ints "A" (mkSeries DInt64 [VInt 1])
         ("A", mkSeries DInt64 [VInt 1]) = VInt n
    /\ (UINT64_MAX < n)%Z
    /\ nrows (df st') = 2%nat.
Proof.
  destruct (run_raises_in_preview_only sample_lib _ sample_huge_save sample_ints
              (reach_start _ _))
    as [[st' Hrun]|(st' & cur & s_cur & p & n & Hrun & _ & _ & Hcur & Hs & Hp & _ & Hn & _
                    & Hrows & _)].
  - apply (bool_decide_unpack _). vm_compute. exact I.
  - vm_compute in Hrun. discriminate Hrun.
  - vm_compute in Hcur. injection Hcur as <-.
    vm_compute in Hs. injection Hs as <-.
    change (df sample_ints) with [("A", mkSeries DInt64 [VInt 1])] in Hp.
    apply list_elem_of_singleton in Hp. subst p.
    exists st', n. split; [exact Hrun|]. split; [exact Hn|]. split.
    + vm_compute in Hn. injection Hn as <-. reflexivity.
    + rewrite Hrows. reflexivity.
Defined.


Lemma save_defaults_unvisited_witness :
  exists sA sB sC,
    df (after (run sample_lib sample_save sample_jumped))
    = [("A", sA); ("B", sB); ("C", sC)]
    /\ last (s_values sA) = Some VNone
    /\ last (s_values sB) = Some (VStr "").
Proof.
  destruct (save_defaults_unvisited sample_lib sample_save sample_jumped)
    as (cur & Hcur & Hrows).
  - discriminate.
  - exact sample_jumped_NoDup.
  - reflexivity.
  - reflexivity.
  - vm_compute in Hcur. injection Hcur as <-.
    change (df sample_jumped) with sample_stable in Hrows. unfold sample_stable in Hrows.
    destruct (df (after (run sample_lib sample_save sample_jumped)))
      as [|[cA sA] [|[cB sB] [|[cC sC] [|p4 d]]]];
      try (exfalso; apply Forall2_length in Hrows; discriminate Hrows).
    apply Forall2_cons_1 in Hrows as [[HnA HA] Hrows].
    apply Forall2_cons_1 in Hrows as [[HnB HB] Hrows].
    apply Forall2_cons_1 in Hrows as [[HnC _] _].
    cbn [fst snd] in *. subst cA cB cC.
    exists sA, sB, sC. split; [reflexivity|]. split.
    + destruct HA as (_ & H & _); [discriminate | reflexivity |].
      apply H. vm_compute. reflexivity.
    + destruct HB as (_ & _ & _ & H); [discriminate | reflexivity |].
      apply H. vm_compute. reflexivity.
Defined.

Lemma first_row_is_text_witness :
  exists st',
    run sample_lib sample_save sample_fresh = Returned st'
    /\ table_values (df st') = [("A", [VStr "draft"]); ("B", [VStr "hello"])].
Proof.
  assert (Hdf : df sample_fresh = [("A", mkSeries DObject []); ("B", mkSeries DObject [])])
    by (vm_compute; reflexivity).
  destruct (first_row_is_text sample_lib sample_save sample_fresh)
    as (st' & cur & row & Hrun & Hcur & Hval & Hrowcur & Hother).
  - rewrite Hdf. discriminate.
  - exact sample_fresh_NoDup.
  - rewrite Hdf. intros p Hp.
    apply elem_of_cons in Hp as [->|Hp]; [reflexivity|].
    apply elem_of_cons in Hp as [->|Hp]; [reflexivity|].
    apply elem_of_nil in Hp. contradiction.
  - reflexivity.
  - vm_compute. reflexivity.
  - vm_compute in Hcur. injection Hcur as <-.
    exists st'. split; [exact Hrun|].
    rewrite Hval, Hdf. cbn [fmap list_fmap fst].
    rewrite Hrowcur.
    rewrite (Hother "A" "draft");
      [reflexivity | rewrite Hdf; apply list_elem_of_here | discriminate
      | vm_compute; reflexivity].
Defined.

Lemma sample_table_rectangular : rectangular sample_table.
Proof.
  intros p Hp.
  apply elem_of_cons in Hp as [->|Hp]; [reflexivity|].
  apply elem_of_cons in Hp as [->|Hp]; [reflexivity|].
  apply elem_of_nil in Hp. contradiction.
Defined.

Lemma run_keeps_rectangular_witness :
  rectangular (df (after (run sample_lib sample_save sample_state)))
  /\ nrows (df (after (run sample_lib sample_save sample_state))) = 2%nat.
Proof.
  split.
  - exact (proj1 (run_keeps_rectangular sample_lib sample_save sample_state
                    sample_table_rectangular)).
  - vm_compute. reflexivity.
Defined.

Lemma table_change_is_saved_witness :
  let st' := after (run sample_lib sample_save sample_state) in
  files st' !! csv_path st' = Some (to_csv sample_lib (df st')).
Proof.
  intros st'.
  apply (proj1 (table_change_is_saved sample_lib sample_save sample_state)).
  vm_compute. discriminate.
Defined.

Lemma file_always_exists_witness :
  (∅ : filesystem) !! DEFAULT_CSV_PATH = None
  /\ is_Some (files (start sample_lib ∅) !! DEFAULT_CSV_PATH).
Proof.
  split; [reflexivity|].
  exact (proj2 (file_always_exists sample_lib ∅ (start sample_lib ∅) (reach_start _ _))).
Defined.

Lemma created_headers_clean_witness :
  columns (df sample_created) = ["A"; "B"]
  /\ wizard_idx sample_created = 0%Z.
Proof.
  assert (Hnil : df (start sample_lib ∅) = []) by (vm_compute; reflexivity).
  pose proof (created_headers_clean sample_lib sample_headers (start sample_lib ∅)
                Hnil eq_refl) as H.
  cbv zeta in H. destruct H as (Hcols & _ & _ & Hidx).
  split.
  - unfold sample_created. rewrite Hcols. vm_compute. reflexivity.
  - apply Hidx. unfold sample_created. vm_compute. discriminate.
Defined.

Lemma headers_survive_restart_witness :
  start sample_lib (files sample_created) = sample_created.
Proof.
  apply (headers_survive_restart sample_lib sample_headers (start sample_lib ∅)).
  - vm_compute. reflexivity.
  - reflexivity.
  - reflexivity.
  - reflexivity.
  - vm_compute. discriminate.
  - exact sample_created_NoDup.
  - vm_compute. reflexivity.
Defined.

Lemma jump_last_then_save_witness :
  let st2 := after (run sample_lib sample_save
                      (after (run sample_lib sample_jump sample_opened))) in
  nrows (df st2) = 2%nat /\ wizard_idx st2 = 0%Z.
Proof.
  intros st2.
  pose proof (jump_last_then_save sample_lib sample_jump sample_save sample_opened
                sample_opened_NoDup) as H.
  cbv zeta in H. fold st2 in H.
  destruct H as (_ & _ & _ & Hrows & _ & Hidx & _).
  - vm_compute. split; [discriminate | reflexivity].
  - reflexivity.
  - reflexivity.
  - split; [rewrite Hrows; vm_compute; reflexivity | exact Hidx].
Defined.
